(** * Advanced Attunement: attunement weight and burden

    A shallow embedding of [scripts/advanced_attunement.js] and the
    properties of its two data classes, [AdvancedAttunementItemData] and
    [AdvancedAttunementActorData].

    The module is JavaScript running inside a virtual-tabletop host.  The
    embedding has three layers:

    - [JS]: the fragment of the language runtime the code relies on
      (values, [ToNumber], [Math.floor], [Math.max], [+] on numbers, [===]);
    - [Host]: the host's documents, its per-document flag store, the
      console, and the state monad [M] in which the methods run;
    - the classes themselves, method by method, under the names they have
      in the source;
    - the [playerCharacters] getter and the [updateItem] and
      [renderTidy5eSheet] hooks, the latter over the two selections it makes
      in the rendered sheet.

    Numbers.  A finite number is represented by the rational it denotes.
    Conversion from a string rounds to the nearest double and overflows to
    an infinity as the language does; [+] on finite numbers is exact, which
    agrees with the language as long as the result is a double (in
    particular on integers up to 2^53), and no statement below relies on it
    beyond that.  The two zeros are identified ([===] does not tell them
    apart and the code never divides).  [NaN] and the two infinities are
    modelled as such. *)

From Stdlib Require Import ZArith QArith Qcanon Qround Ascii String List Lia.
From stdpp Require Import base option list strings gmap.

Local Open Scope Z_scope.

(** ** The JavaScript runtime fragment *)

Module JS.

Inductive number : Type :=
  | NaN
  | PosInfinity
  | NegInfinity
  | Finite (q : Qc).

Definition ofZ (z : Z) : number := Finite (Q2Qc (inject_Z z)).

(** Language values a flag can hold and the language can convert to a
    number (the others come further down).  An object carries its identity and
    the string its [toString] method yields (["[object Object]"] for a plain
    object, the joined elements for an array): flag data is plain data, so
    [valueOf] returns the object itself and [ToPrimitive] falls through to
    [toString]. *)
Inductive value : Type :=
  | VUndefined
  | VNull
  | VBoolean (b : bool)
  | VNumber (n : number)
  | VString (s : string)
  | VObject (ref : nat) (repr : string).

(** *** Rounding to a double

    The number nearest to a rational among the binary64 values, ties going
    to the even significand; a magnitude that rounds to 2^1024 or more is
    an infinity.  With [e] the binary exponent of the magnitude, the unit
    in the last place is 2^[k] for [k] the larger of [e - 52] and -1074. *)

(** [n / d] rounded to the nearest integer, ties to even, for [0 <= n]. *)
Definition roundHalfEven (n : Z) (d : positive) : Z :=
  let f := n / Z.pos d in
  let r := n mod Z.pos d in
  match 2 * r ?= Z.pos d with
  | Lt => f
  | Gt => f + 1
  | Eq => if Z.even f then f else f + 1
  end.

Definition roundToDouble (q : Q) : number :=
  let n := Z.abs (Qnum q) in
  let d := Qden q in
  if n =? 0 then ofZ 0
  else
    let e0 := Z.log2 n - Z.log2 (Z.pos d) in
    let below :=
      if 0 <=? e0 then n <? 2 ^ e0 * Z.pos d
      else n * 2 ^ (- e0) <? Z.pos d in
    let e := if below then e0 - 1 else e0 in
    let k := Z.max (e - 52) (-1074) in
    let m :=
      if 0 <=? k then roundHalfEven n (d * Z.to_pos (2 ^ k))
      else roundHalfEven (n * 2 ^ (- k)) d in
    let negative := Qnum q <? 0 in
    if (0 <=? k) && (2 ^ 1024 <=? m * 2 ^ k)
    then if negative then NegInfinity else PosInfinity
    else
      let magnitude :=
        if 0 <=? k then inject_Z (m * 2 ^ k)
        else (m # Z.to_pos (2 ^ (- k)))%Q in
      Finite (Q2Qc (Qred (if negative then - magnitude else magnitude)%Q)).

(** *** StringToNumber

    Strings are sequences of code units below 256.  The grammar is
    StringNumericLiteral: optional white space around either nothing (the
    value 0), a signed decimal literal ([Infinity], digits with an
    optional fraction and exponent), or an unsigned binary, octal or
    hexadecimal integer literal.  Anything else is [NaN].  The value of a
    literal is its mathematical value rounded to a double. *)

Definition isWhiteSpace (c : ascii) : bool :=
  let n := N_of_ascii c in
  ((9 <=? n) && (n <=? 13) || (n =? 32) || (n =? 160))%N.

Fixpoint trimStart (l : list ascii) : list ascii :=
  match l with
  | c :: l' => if isWhiteSpace c then trimStart l' else l
  | [] => []
  end.

Definition trim (l : list ascii) : list ascii :=
  rev (trimStart (rev (trimStart l))).

(** The value of a digit character in bases up to 16. *)
Definition digitValue (c : ascii) : option Z :=
  let n := Z.of_N (N_of_ascii c) in
  if (48 <=? n) && (n <=? 57) then Some (n - 48)
  else if (97 <=? n) && (n <=? 102) then Some (n - 87)
  else if (65 <=? n) && (n <=? 70) then Some (n - 55)
  else None.

Definition isDigitIn (radix : Z) (c : ascii) : bool :=
  match digitValue c with
  | Some d => d <? radix
  | None => false
  end.

(** Longest prefix of digits of the given radix, and what follows it. *)
Fixpoint spanDigits (radix : Z) (l : list ascii) : list ascii * list ascii :=
  match l with
  | c :: l' =>
      if isDigitIn radix c
      then let '(ds, r) := spanDigits radix l' in (c :: ds, r)
      else ([], l)
  | [] => ([], [])
  end.

Fixpoint digitsValue (radix : Z) (acc : Z) (ds : list ascii) : Z :=
  match ds with
  | c :: ds' => digitsValue radix (acc * radix + default 0 (digitValue c)) ds'
  | [] => acc
  end.

Definition isNil {A} (l : list A) : bool :=
  match l with [] => true | _ => false end.

(** ExponentPart, or nothing: the exponent, if the rest is well formed. *)
Definition parseExponent (r : list ascii) : option Z :=
  match r with
  | [] => Some 0
  | c :: r' =>
      if (Ascii.eqb c "e" || Ascii.eqb c "E")%char then
        let '(neg, r'') :=
          match r' with
          | "+"%char :: t => (false, t)
          | "-"%char :: t => (true, t)
          | _ => (false, r')
          end in
        let '(ds, rest) := spanDigits 10 r'' in
        if isNil ds || negb (isNil rest) then None
        else Some (if neg then - digitsValue 10 0 ds else digitsValue 10 0 ds)
      else None
  end.

(** StrUnsignedDecimalLiteral without the [Infinity] case: the
    mathematical value of the literal, before rounding. *)
Definition parseUnsignedDecimal (l : list ascii) : option Q :=
  let '(ip, r1) := spanDigits 10 l in
  let '(fp, r2, ok) :=
    match r1 with
    | "."%char :: t =>
        let '(fp, r2) := spanDigits 10 t in
        (fp, r2, negb (isNil ip && isNil fp))
    | _ => ([], r1, negb (isNil ip))
    end in
  if ok then
    match parseExponent r2 with
    | Some e =>
        Some (inject_Z (digitsValue 10 0 (ip ++ fp))
              * Qpower (inject_Z 10) (e - Z.of_nat (length fp)))%Q
    | None => None
    end
  else None.

Definition Infinity_literal : list ascii :=
  list_ascii_of_string "Infinity".

Definition list_ascii_eqb (a b : list ascii) : bool :=
  String.eqb (string_of_list_ascii a) (string_of_list_ascii b).

Definition parseDecimal (l : list ascii) : number :=
  let '(neg, u) :=
    match l with
    | "+"%char :: t => (false, t)
    | "-"%char :: t => (true, t)
    | _ => (false, l)
    end in
  if list_ascii_eqb u Infinity_literal then
    if neg then NegInfinity else PosInfinity
  else
    match parseUnsignedDecimal u with
    | Some q => roundToDouble (if neg then - q else q)%Q
    | None => NaN
    end.

(** NonDecimalIntegerLiteral: [0b], [0o] or [0x] followed by at least one
    digit of that base and nothing else. *)
Definition parseNonDecimal (l : list ascii) : option number :=
  match l with
  | "0"%char :: p :: t =>
      let radix :=
        if (Ascii.eqb p "x" || Ascii.eqb p "X")%char then Some 16
        else if (Ascii.eqb p "o" || Ascii.eqb p "O")%char then Some 8
        else if (Ascii.eqb p "b" || Ascii.eqb p "B")%char then Some 2
        else None in
      match radix with
      | Some rx =>
          let '(ds, rest) := spanDigits rx t in
          Some (if isNil ds || negb (isNil rest) then NaN
                else roundToDouble (inject_Z (digitsValue rx 0 ds)))
      | None => None
      end
  | _ => None
  end.

Definition StringToNumber (s : string) : number :=
  let l := trim (list_ascii_of_string s) in
  if isNil l then ofZ 0
  else
    match parseNonDecimal l with
    | Some n => n
    | None => parseDecimal l
    end.

(** *** ToNumber *)

Definition ToNumber (v : value) : number :=
  match v with
  | VUndefined => NaN
  | VNull => ofZ 0
  | VBoolean b => if b then ofZ 1 else ofZ 0
  | VNumber n => n
  | VString s => StringToNumber s
  | VObject _ repr => StringToNumber repr
  end.

(** *** Math.floor, Math.max and addition *)

Definition Math_floor (v : value) : number :=
  match ToNumber v with
  | Finite q => ofZ (Qfloor q)
  | n => n
  end.

(** [Math.max(a, b)] on two numbers. *)
Definition Math_max (a b : number) : number :=
  match a, b with
  | NaN, _ | _, NaN => NaN
  | PosInfinity, _ | _, PosInfinity => PosInfinity
  | NegInfinity, y => y
  | x, NegInfinity => x
  | Finite p, Finite q => if Qle_bool p q then b else a
  end.

(** [a + b] on two numbers. *)
Definition add (a b : number) : number :=
  match a, b with
  | NaN, _ | _, NaN => NaN
  | PosInfinity, NegInfinity | NegInfinity, PosInfinity => NaN
  | PosInfinity, _ | _, PosInfinity => PosInfinity
  | NegInfinity, _ | _, NegInfinity => NegInfinity
  | Finite p, Finite q => Finite (p + q)%Qc
  end.

(** *** Strict equality, [===] *)

Definition Number_equal (a b : number) : bool :=
  match a, b with
  | PosInfinity, PosInfinity => true
  | NegInfinity, NegInfinity => true
  | Finite p, Finite q => Qeq_bool p q
  | _, _ => false
  end.

Definition strict_equals (x y : value) : bool :=
  match x, y with
  | VUndefined, VUndefined => true
  | VNull, VNull => true
  | VBoolean a, VBoolean b => Bool.eqb a b
  | VNumber a, VNumber b => Number_equal a b
  | VString a, VString b => String.eqb a b
  | VObject r _, VObject r' _ => Nat.eqb r r'
  | _, _ => false
  end.

End JS.

Import JS.

(** ** The host: documents, flag store, console *)

Module Host.

(** A document of the host is addressed by its kind and id. *)
Inductive document : Type :=
  | ActorDocument (id : string)
  | ItemDocument (id : string).

Global Instance document_eq_dec : EqDecision document.
Proof. solve_decision. Defined.

Global Instance document_countable : Countable document.
Proof.
  refine (inj_countable'
    (λ d, match d with ActorDocument i => inl i | ItemDocument i => inr i end)
    (λ s, match s with inl i => ActorDocument i | inr i => ItemDocument i end)
    _).
  by intros [].
Defined.

(** The host's [Collection]: a map keyed by id that iterates in insertion
    order. *)
Definition Collection (A : Type) : Type := list (string * A).

Fixpoint Collection_get {A} (c : Collection A) (key : string) : option A :=
  match c with
  | (k, x) :: c' => if String.eqb k key then Some x else Collection_get c' key
  | [] => None
  end.

Definition Collection_filter {A} (c : Collection A) (condition : A → bool)
  : list A :=
  List.filter condition (map snd c).

(** [item.id], [item.name], [item.system.attunement]. *)
Record Item : Type := {
  item_id : string;
  item_name : string;
  item_attunement : value
}.

(** [actor.id], [actor.name], [actor.type], [actor.items]. *)
Record Actor : Type := {
  actor_id : string;
  actor_name : string;
  actor_type : string;
  actor_items : Collection Item
}.

(** One call of [Document#setFlag], as the host receives it. *)
Record flag_update : Type := {
  upd_document : document;
  upd_scope : string;
  upd_key : string;
  upd_value : value
}.

(** A template literal before rendering: literal text and substituted
    values. *)
Inductive fragment : Type :=
  | Text (s : string)
  | Interp (v : value).

Inductive level : Type := LevelLog | LevelWarn | LevelError.

(** One call of a console method: its level and its arguments. *)
Record console_call : Type := {
  call_level : level;
  call_args : list (list fragment)
}.

(** The mutable state the methods run against: the flags of every
    document, addressed by document, scope and key; what was sent to the
    console; the [setFlag] calls the host received, oldest first. *)
Record state : Type := {
  flags : gmap (document * string * string) value;
  console : list console_call;
  updates : list flag_update
}.

Definition M (A : Type) : Type := state → A * state.

Global Instance M_ret : MRet M := λ A x h, (x, h).
Global Instance M_bind : MBind M := λ A B f m h,
  let '(x, h') := m h in f x h'.

(** What [setFlag] returns: a promise of the updated document.  The write
    is taken to complete before the next step runs. *)
Inductive Promise : Type := PromiseOf (d : document).

(** [doc.getFlag(scope, key)]: the stored value, or [undefined]. *)
Definition getFlag (doc : document) (scope key : string) : M value :=
  λ h, (default VUndefined (flags h !! (doc, scope, key)), h).

(** [doc.setFlag(scope, key, value)]. *)
Definition setFlag (doc : document) (scope key : string) (v : value)
  : M Promise :=
  λ h, (PromiseOf doc,
        {| flags := <[(doc, scope, key) := v]> (flags h);
           console := console h;
           updates := updates h ++
             [{| upd_document := doc; upd_scope := scope;
                 upd_key := key; upd_value := v |}] |}).

Definition console_call_ (lv : level) (args : list (list fragment)) : M unit :=
  λ h, (tt,
        {| flags := flags h;
           console := console h ++ [{| call_level := lv; call_args := args |}];
           updates := updates h |}).

End Host.

Import Host.

(** ** The main module class *)

Module AdvancedAttunement.

Definition ID : string := "advanced-attunement".

(** [FLAGS.ATTUNEMENT_WEIGHT]: an item's attunement weight. *)
Definition ATTUNEMENT_WEIGHT : string := "attunement-weight".

(** [FLAGS.ATTUNEMENT_BURDEN]: an actor's attunement burden. *)
Definition ATTUNEMENT_BURDEN : string := "attunement-burden".

Definition log (args : list (list fragment)) : M unit :=
  console_call_ LevelLog ([Text ID] :: [Text "|"] :: args).

Definition warn (args : list (list fragment)) : M unit :=
  console_call_ LevelWarn ([Text ID] :: [Text "|"] :: args).

Definition error (args : list (list fragment)) : M unit :=
  console_call_ LevelError ([Text ID] :: [Text "|"] :: args).

Definition isPlayerCharacter (actor : Actor) : bool :=
  String.eqb (actor_type actor) "character".

Definition isAttuned (item : Item) : bool :=
  strict_equals (item_attunement item) (VNumber (ofZ 2)).

Definition isAttunable (item : Item) : bool :=
  strict_equals (item_attunement item) (VNumber (ofZ 1)) || isAttuned item.

End AdvancedAttunement.

(** ** The data class for items *)

Module AdvancedAttunementItemData.

Record t : Type := new { _item : Item }.

Definition DEFAULT_WEIGHT : number := ofZ 1.

Definition sanitizeWeight (weight : value) : number :=
  if strict_equals weight VUndefined
  then DEFAULT_WEIGHT
  else Math_max (ofZ 0) (Math_floor weight).

Definition getAttunementWeight (this : t) : M number :=
  weight ← getFlag (ItemDocument (item_id (_item this)))
              AdvancedAttunement.ID AdvancedAttunement.ATTUNEMENT_WEIGHT;
  mret (sanitizeWeight weight).

Definition setAttunementWeight (this : t) (weight : value) : M Promise :=
  let sanitizedWeight := sanitizeWeight weight in
  setFlag (ItemDocument (item_id (_item this)))
    AdvancedAttunement.ID AdvancedAttunement.ATTUNEMENT_WEIGHT
    (VNumber sanitizedWeight).

End AdvancedAttunementItemData.

(** ** The data class for actors *)

Module AdvancedAttunementActorData.

Record t : Type := new { _actor : Actor }.

Definition getAttunementBurden (this : t) : M value :=
  getFlag (ActorDocument (actor_id (_actor this)))
    AdvancedAttunement.ID AdvancedAttunement.ATTUNEMENT_BURDEN.

Definition setAttunementBurden (this : t) (burden : value) : M Promise :=
  let sanitizedBurden := Math_max (ofZ 0) (Math_floor burden) in
  setFlag (ActorDocument (actor_id (_actor this)))
    AdvancedAttunement.ID AdvancedAttunement.ATTUNEMENT_BURDEN
    (VNumber sanitizedBurden).

(** The value of [newBurden] in [updateAttunementBurden]: filter the
    attuned items, wrap each, take each weight, reduce with [+] from 0. *)
Definition newBurden (this : t) : M number :=
  let attuned :=
    Collection_filter (actor_items (_actor this)) AdvancedAttunement.isAttuned in
  let wrapped := map AdvancedAttunementItemData.new attuned in
  weights ← mapM AdvancedAttunementItemData.getAttunementWeight wrapped;
  mret (fold_left add weights (ofZ 0)).

(** The result is the promise of the write, or nothing ([undefined]) when
    the burden is unchanged. *)
Definition updateAttunementBurden (this : t) : M (option Promise) :=
  currentBurden ← getAttunementBurden this;
  newBurden ← newBurden this;
  if negb (strict_equals (VNumber newBurden) currentBurden) then
    _ ← AdvancedAttunement.log
          [[Text "Updating attunement burden of ";
            Interp (VString (actor_name (_actor this)));
            Text ": "; Interp currentBurden;
            Text " -> "; Interp (VNumber newBurden)]];
    p ← setAttunementBurden this (VNumber newBurden);
    mret (Some p)
  else mret None.

(** [getActor(actorId)], with [game.actors] passed in.  [None] is the
    [undefined] the source returns. *)
Definition getActor (game_actors : Collection Actor) (actorId : string)
  : option t :=
  match Collection_get game_actors actorId with
  | Some actor =>
      if AdvancedAttunement.isPlayerCharacter actor
      then Some (new actor)
      else None
  | None => None
  end.

(** [getItem(itemId)].  [None] is the [null] the source returns. *)
Definition getItem (this : t) (itemId : string)
  : option AdvancedAttunementItemData.t :=
  match Collection_get (actor_items (_actor this)) itemId with
  | Some item =>
      if AdvancedAttunement.isAttunable item
      then Some (AdvancedAttunementItemData.new item)
      else None
  | None => None
  end.

End AdvancedAttunementActorData.

Import AdvancedAttunement.
Import AdvancedAttunementItemData.
Import AdvancedAttunementActorData.

(** ** Vocabulary of the specification *)

Global Instance number_eq_dec : EqDecision number.
Proof. solve_decision. Defined.

Global Instance value_eq_dec : EqDecision value.
Proof. solve_decision. Defined.

(** The attunement statuses of the game system, as [item.system.attunement]
    holds them. *)
Definition NotAttunable : value := VNumber (ofZ 0).
Definition RequiresAttunement : value := VNumber (ofZ 1).
Definition Attuned : value := VNumber (ofZ 2).

(** Where the two flags of the module live in the store. *)
Definition weight_flag (item : Item) : document * string * string :=
  (ItemDocument (item_id item), ID, ATTUNEMENT_WEIGHT).

Definition burden_flag (actor : Actor) : document * string * string :=
  (ActorDocument (actor_id actor), ID, ATTUNEMENT_BURDEN).

Definition nonneg_integer (n : number) : Prop :=
  ∃ z : Z, 0 <= z ∧ n = ofZ z.

(** The shapes a sanitized number can take. *)
Definition sanitized (n : number) : Prop :=
  n = NaN ∨ n = PosInfinity ∨ nonneg_integer n.

(** The weight of an item as [getWeight] reports it in a given state. *)
Definition weightOf (h : state) (item : Item) : number :=
  fst (getAttunementWeight (AdvancedAttunementItemData.new item) h).

(** The weights of a list, added up from a start value in the order of the
    list: [((acc + w1) + w2) + ...]. *)
Fixpoint sumFrom (acc : number) (weights : list number) : number :=
  match weights with
  | [] => acc
  | w :: rest => sumFrom (add acc w) rest
  end.

(** The burden as the specification words it: of the owned items keep
    exactly those whose status is Attuned, take the weight of each, and sum
    the weights from 0, in the order of the collection; the empty sum
    is 0. *)
Definition sumAttunedWeights (h : state) (items : list Item) : number :=
  sumFrom (ofZ 0)
    (map (weightOf h)
       (filter (λ item, item_attunement item = Attuned) items)).

(** The [setFlag] call that persists burden [n] for an actor, and the
    console call that reports the transition. *)
Definition burden_update (actor : Actor) (n : number) : flag_update :=
  {| upd_document := ActorDocument (actor_id actor);
     upd_scope := ID; upd_key := ATTUNEMENT_BURDEN;
     upd_value := VNumber n |}.

Definition transition_report (actor : Actor) (old : value) (n : number)
  : console_call :=
  {| call_level := LevelLog;
     call_args :=
       [[Text ID]; [Text "|"];
        [Text "Updating attunement burden of ";
         Interp (VString (actor_name actor));
         Text ": "; Interp old; Text " -> "; Interp (VNumber n)]] |}.

(** Two calls of [updateAttunementBurden] in succession. *)
Definition updateTwice (this : AdvancedAttunementActorData.t)
  : M (option Promise * option Promise) :=
  r1 ← updateAttunementBurden this;
  r2 ← updateAttunementBurden this;
  mret (r1, r2).

(** How many [setFlag] calls the host received while a computation ran. *)
Definition writes_during {A} (m : M A) (h : state) : nat :=
  (length (updates (snd (m h))) - length (updates h))%nat.

(** ** Sample documents *)

Definition frac (n : Z) (d : positive) : value := VNumber (Finite (Q2Qc (n # d))).

Definition sword : Item :=
  {| item_id := "sword"; item_name := "Flame Tongue"; item_attunement := Attuned |}.
Definition ring : Item :=
  {| item_id := "ring"; item_name := "Ring of Protection"; item_attunement := Attuned |}.
Definition cloak : Item :=
  {| item_id := "cloak"; item_name := "Cloak of Elvenkind"; item_attunement := Attuned |}.
Definition wand : Item :=
  {| item_id := "wand"; item_name := "Wand of Web";
     item_attunement := RequiresAttunement |}.
Definition rope : Item :=
  {| item_id := "rope"; item_name := "Hempen Rope"; item_attunement := NotAttunable |}.

(** A player character with three attuned items among five. *)
Definition hero : Actor :=
  {| actor_id := "hero"; actor_name := "Hero"; actor_type := "character";
     actor_items :=
       [("sword", sword); ("rope", rope); ("ring", ring);
        ("wand", wand); ("cloak", cloak)] |}.

(** A player character with no attuned item. *)
Definition squire : Actor :=
  {| actor_id := "squire"; actor_name := "Squire"; actor_type := "character";
     actor_items := [("wand", wand); ("rope", rope)] |}.

Definition goblin : Actor :=
  {| actor_id := "goblin"; actor_name := "Goblin"; actor_type := "npc";
     actor_items := [] |}.

Definition game_actors : Collection Actor :=
  [("hero", hero); ("goblin", goblin); ("squire", squire)].

(** Stored weights: sword 2, ring 1, wand 3, rope 7, cloak none. *)
Definition weights_only : gmap (document * string * string) value :=
  <[weight_flag sword := VNumber (ofZ 2)]>
  (<[weight_flag ring := VNumber (ofZ 1)]>
  (<[weight_flag wand := VNumber (ofZ 3)]>
  (<[weight_flag rope := VNumber (ofZ 7)]> ∅))).

(** A state with those weights and the given burden flags. *)
Definition world (burdens : list (Actor * value)) : state :=
  {| flags :=
       foldr (λ '(a, v) m, <[burden_flag a := v]> m) weights_only burdens;
     console := [];
     updates := [] |}.

(** ** The rest of the module: getter and hooks *)

(** *** Truthiness and abrupt completion *)

(** [ToBoolean], as an [if] applies it to its condition. *)
Definition ToBoolean (v : value) : bool :=
  match v with
  | VUndefined | VNull => false
  | VBoolean b => b
  | VNumber NaN => false
  | VNumber (Finite q) => negb (Qeq_bool q 0)
  | VNumber _ => true
  | VString s => negb (String.eqb s "")
  | VObject _ _ => true
  end.

Inductive exception : Type := TypeError.

(** How a handler ends: normally, or by throwing. *)
Inductive completion (A : Type) : Type :=
  | Normal (a : A)
  | Throw (e : exception).
Arguments Normal {A} a.
Arguments Throw {A} e.

(** *** Values the language cannot convert to a number

    [value] holds the values on which [ToNumber] succeeds.  A caller can
    also supply, and a flag can also hold, a value on which [ToNumber]
    throws a [TypeError]: a BigInt, a Symbol, or an object whose conversion
    to a primitive fails because neither its [valueOf] nor its [toString]
    yields a primitive (an object with a [toString] property that is not a
    function, say). *)
Inductive any : Type :=
  | Convertible (v : value)
  | VBigInt (z : Z)
  | VSymbol (description : string)
  | VUnconvertible (ref : nat).

Definition ToNumber_any (w : any) : completion number :=
  match w with
  | Convertible v => Normal (ToNumber v)
  | VBigInt _ | VSymbol _ | VUnconvertible _ => Throw TypeError
  end.

(** [w === undefined]. *)
Definition is_undefined (w : any) : bool :=
  match w with
  | Convertible v => strict_equals v VUndefined
  | VBigInt _ | VSymbol _ | VUnconvertible _ => false
  end.

(** [Math.floor(w)]: the conversion comes first and may throw. *)
Definition Math_floor_any (w : any) : completion number :=
  match ToNumber_any w with
  | Normal n => Normal (Math_floor (VNumber n))
  | Throw e => Throw e
  end.

(** [sanitizeWeight] on any language value: the same conditional
    expression, with the [TypeError] of the conversion passed on. *)
Definition sanitizeWeight_any (weight : any) : completion number :=
  if is_undefined weight
  then Normal DEFAULT_WEIGHT
  else
    match Math_floor_any weight with
    | Normal floor => Normal (Math_max (ofZ 0) floor)
    | Throw e => Throw e
    end.

(** *** [AdvancedAttunement.playerCharacters] *)

Definition playerCharacters (game_actors : Collection Actor) : list Actor :=
  Collection_filter game_actors isPlayerCharacter.

(** *** The [updateItem] hook

    The handler receives the item; [parent] is [item.parent], which is
    [null] for an item no actor owns.  Reading [actor.type] of [null]
    throws a [TypeError]; [&&] evaluates its right operand only when the
    left one is true. *)
Definition on_updateItem (item : Item) (parent : option Actor)
  : M (completion unit) :=
  if isAttunable item then
    match parent with
    | None => mret (Throw TypeError)
    | Some actor =>
        if isPlayerCharacter actor then
          _ ← updateAttunementBurden (AdvancedAttunementActorData.new actor);
          mret (Normal tt)
        else mret (Normal tt)
    end
  else mret (Normal tt).

(** *** The [renderTidy5eSheet] hook

    The rendered sheet is seen through the two selections the handler
    makes: the attunement icon cells, each with the [data-item-id]
    attribute of its parent element ([null] when the attribute is missing)
    and its child nodes, and the elements that display the attuned-items
    count, each with its child nodes.  A node is kept as the template it was
    written from. *)
Definition node : Type := list fragment.

Record IconDiv : Type := {
  parent_data_item_id : option string;
  icon_children : list node
}.

Record SheetHtml : Type := {
  attunement_icons : list IconDiv;
  attuned_items_current : list (list node)
}.

(** [app.object], and the identity of that object. *)
Record App : Type := {
  app_object : Actor;
  app_object_ref : nat
}.

Definition quote : string := String "034"%char EmptyString.
Definition newline : string := String "010"%char EmptyString.

(** The markup inserted at the start of an icon cell. *)
Definition weight_badge (weight : number) : node :=
  [Text (newline ++ "<div class=" ++ quote
         ++ "item-detail item-attunement-weight" ++ quote ++ ">");
   Interp (VNumber weight);
   Text "</div>"].

(** The body of the first [each] callback. *)
Definition showWeight (app : App) (actorData : AdvancedAttunementActorData.t)
    (iconDiv : IconDiv) : M IconDiv :=
  let itemId := parent_data_item_id iconDiv in
  match itemId ≫= getItem actorData with
  | Some itemData =>
      itemAttunementWeight ← getAttunementWeight itemData;
      if ToBoolean (VNumber itemAttunementWeight) then
        mret {| parent_data_item_id := parent_data_item_id iconDiv;
                icon_children :=
                  weight_badge itemAttunementWeight :: icon_children iconDiv |}
      else mret iconDiv
  | None =>
      _ ← AdvancedAttunement.warn
            [[Text "Could not load item ";
              Interp (from_option VString VNull itemId);
              Text " from parent actor."];
             [Interp (VObject (app_object_ref app) "[object Object]")]];
      mret iconDiv
  end.

(** The body of the second [each] callback: log, then [replaceChildren]. *)
Definition showBurden (actor : Actor) (actorAttunementBurden : value)
    (attunementDisplay : list node) : M (list node) :=
  _ ← AdvancedAttunement.log
        [[Text "Displaying attunement burden (";
          Interp actorAttunementBurden;
          Text ") on "; Interp (VString (actor_name actor));
          Text "'s Tidy5eSheet."]];
  mret [[Interp actorAttunementBurden]].

Definition on_renderTidy5eSheet (app : App) (html : SheetHtml) : M SheetHtml :=
  let actor := app_object app in
  let actorData := AdvancedAttunementActorData.new actor in
  icons ← mapM (showWeight app actorData) (attunement_icons html);
  actorAttunementBurden ← getAttunementBurden actorData;
  displays ← mapM (showBurden actor actorAttunementBurden)
                  (attuned_items_current html);
  mret {| attunement_icons := icons; attuned_items_current := displays |}.

(** *** Vocabulary for the hooks *)

(** The item an icon cell stands for, if the actor can load it. *)
Definition loadable (actor : Actor) (iconDiv : IconDiv)
  : option AdvancedAttunementItemData.t :=
  parent_data_item_id iconDiv ≫= getItem (AdvancedAttunementActorData.new actor).

(** Whether the item of an icon cell cannot be loaded. *)
Definition unloadable (actor : Actor) (iconDiv : IconDiv) : bool :=
  match loadable actor iconDiv with
  | Some _ => false
  | None => true
  end.

(** The console call made for an icon cell whose item cannot be loaded. *)
Definition unloadable_warning (app : App) (iconDiv : IconDiv) : console_call :=
  {| call_level := LevelWarn;
     call_args :=
       [[Text ID]; [Text "|"];
        [Text "Could not load item ";
         Interp (from_option VString VNull (parent_data_item_id iconDiv));
         Text " from parent actor."];
        [Interp (VObject (app_object_ref app) "[object Object]")]] |}.

(** The console call made for each element that displays the burden. *)
Definition display_report (actor : Actor) (burden : value) : console_call :=
  {| call_level := LevelLog;
     call_args :=
       [[Text ID]; [Text "|"];
        [Text "Displaying attunement burden ("; Interp burden;
         Text ") on "; Interp (VString (actor_name actor));
         Text "'s Tidy5eSheet."]] |}.

(** The weight shown in an icon cell, if one is shown. *)
Definition badge_shown (actor : Actor) (h : state) (iconDiv : IconDiv)
  : option number :=
  match loadable actor iconDiv with
  | Some d =>
      if ToBoolean (VNumber (weightOf h (_item d)))
      then Some (weightOf h (_item d))
      else None
  | None => None
  end.

(** An icon cell with a weight badge put in front of its children. *)
Definition with_badge (iconDiv : IconDiv) (weight : number) : IconDiv :=
  {| parent_data_item_id := parent_data_item_id iconDiv;
     icon_children := weight_badge weight :: icon_children iconDiv |}.

(** A state with more console output and nothing else changed. *)
Definition with_console (h : state) (calls : list console_call) : state :=
  {| flags := flags h; console := console h ++ calls; updates := updates h |}.

(** An icon cell after the first callback ran on it. *)
Definition render_icon (actor : Actor) (h : state) (iconDiv : IconDiv)
  : IconDiv :=
  match badge_shown actor h iconDiv with
  | Some weight => with_badge iconDiv weight
  | None => iconDiv
  end.

(** The warnings the first loop sends to the console, in order. *)
Definition icon_warnings (app : App) (icons : list IconDiv)
  : list console_call :=
  flat_map (λ iconDiv,
              match loadable (app_object app) iconDiv with
              | Some _ => []
              | None => [unloadable_warning app iconDiv]
              end) icons.

(** A sample sheet of the hero: cells for the sword, the rope, an unknown
    id and a cell without the attribute, and one burden display. *)
Definition hero_app : App := {| app_object := hero; app_object_ref := 1 |}.

Definition hero_sheet : SheetHtml :=
  {| attunement_icons :=
       [{| parent_data_item_id := Some "sword"; icon_children := [] |};
        {| parent_data_item_id := Some "rope"; icon_children := [] |};
        {| parent_data_item_id := Some "lute"; icon_children := [] |};
        {| parent_data_item_id := None; icon_children := [] |}];
     attuned_items_current := [[[Text "3"]]] |}.

(** ** The runtime fragment on sample inputs *)

Example StringToNumber_decimal :
  StringToNumber " 3.9 " = Finite (Q2Qc (8782019273372467 # 2251799813685248))
  ∧ StringToNumber "-1.5e1" = ofZ (-15)
  ∧ StringToNumber "5." = ofZ 5
  ∧ StringToNumber "" = ofZ 0.
Proof. vm_compute. done. Qed.

Example StringToNumber_rounds_to_double :
  StringToNumber "1e400" = PosInfinity
  ∧ StringToNumber "-1e400" = NegInfinity
  ∧ StringToNumber "0.99999999999999999999" = ofZ 1
  ∧ StringToNumber "9007199254740993" = ofZ 9007199254740992
  ∧ StringToNumber "1e-400" = ofZ 0.
Proof. vm_compute. done. Qed.

Example StringToNumber_other_literals :
  StringToNumber "0x1F" = ofZ 31
  ∧ StringToNumber "0b101" = ofZ 5
  ∧ StringToNumber "-Infinity" = NegInfinity.
Proof. vm_compute. done. Qed.

Example StringToNumber_malformed :
  StringToNumber "abc" = NaN
  ∧ StringToNumber "1e" = NaN
  ∧ StringToNumber "-0x10" = NaN
  ∧ StringToNumber "[object Object]" = NaN.
Proof. vm_compute. done. Qed.

Example Math_floor_samples :
  Math_floor (frac (-27) 10) = ofZ (-3)
  ∧ Math_floor (frac 39 10) = ofZ 3
  ∧ Math_floor VNull = ofZ 0
  ∧ Math_floor (VString "abc") = NaN.
Proof. vm_compute. done. Qed.

Example strict_equals_samples :
  strict_equals (VNumber (ofZ 4)) (VString "4") = false
  ∧ strict_equals (VNumber NaN) (VNumber NaN) = false
  ∧ strict_equals (VNumber (ofZ 0)) VUndefined = false
  ∧ strict_equals (VNumber (ofZ 4)) (VNumber (ofZ 4)) = true.
Proof. vm_compute. done. Qed.

(** ** Arithmetic of the runtime numbers *)

Lemma ofZ_add a b : add (ofZ a) (ofZ b) = ofZ (a + b).
Proof.
  unfold ofZ, add. f_equal. apply Qc_is_canon. simpl.
  rewrite !Qred_correct. rewrite inject_Z_plus. reflexivity.
Qed.

Lemma Qfloor_ofZ z : Qfloor (Q2Qc (inject_Z z)) = z.
Proof.
  simpl. rewrite (Qfloor_comp _ _ (Qred_correct _)). apply Qfloor_Z.
Qed.

Lemma Math_max_ofZ a b : Math_max (ofZ a) (ofZ b) = ofZ (Z.max a b).
Proof.
  unfold Math_max, ofZ.
  destruct (Qle_bool (Q2Qc (inject_Z a)) (Q2Qc (inject_Z b))) eqn:E.
  - apply Qle_bool_iff in E. simpl in E. rewrite !Qred_correct in E.
    rewrite <- Zle_Qle in E. rewrite Z.max_r by lia. reflexivity.
  - assert (~ (a <= b)).
    { intros H. apply Bool.not_true_iff_false in E. apply E.
      apply Qle_bool_iff. simpl. rewrite !Qred_correct.
      rewrite <- Zle_Qle. exact H. }
    rewrite Z.max_l by lia. reflexivity.
Qed.

Lemma getAttunementWeight_run d h :
  getAttunementWeight d h =
  (sanitizeWeight (default VUndefined (flags h !! weight_flag (_item d))), h).
Proof. reflexivity. Qed.

Lemma getAttunementBurden_run a h :
  getAttunementBurden a h =
  (default VUndefined (flags h !! burden_flag (_actor a)), h).
Proof. reflexivity. Qed.

Lemma mapM_cons {A B} (f : A → M B) x l h :
  mapM f (x :: l) h =
  let '(y, h1) := f x h in let '(k, h2) := mapM f l h1 in (y :: k, h2).
Proof. reflexivity. Qed.

Lemma mapM_getAttunementWeight (l : list AdvancedAttunementItemData.t) h :
  mapM getAttunementWeight l h =
  (map (λ d, fst (getAttunementWeight d h)) l, h).
Proof.
  induction l as [|d l IH]; [reflexivity|].
  rewrite mapM_cons, getAttunementWeight_run, IH. reflexivity.
Qed.

Lemma Number_equal_spec a b : Number_equal a b = true ↔ a = b ∧ a ≠ NaN.
Proof.
  destruct a, b; simpl; split; try (intros [? ?]); try done.
  - intros E. apply Qeq_bool_iff in E. apply Qc_is_canon in E. by subst.
  - apply Qeq_bool_iff. by simplify_eq.
Qed.

Lemma strict_equals_number n v :
  strict_equals (VNumber n) v = true ↔ v = VNumber n ∧ n ≠ NaN.
Proof.
  destruct v; simpl; try (split; [done | by intros [? ?]]).
  rewrite Number_equal_spec. split; intros [? ?]; by simplify_eq.
Qed.

Lemma isAttuned_spec item :
  isAttuned item = true ↔ item_attunement item = Attuned.
Proof.
  unfold isAttuned, Attuned. destruct (item_attunement item); simpl;
    try (split; done).
  rewrite Number_equal_spec. split.
  - by intros [-> _].
  - intros [= ->]. done.
Qed.

(** ** What [getAttunementWeight] can return *)

Lemma Math_floor_finite v q :
  ToNumber v = Finite q → Math_floor v = ofZ (Qfloor q).
Proof. unfold Math_floor. by intros ->. Qed.

Lemma sanitizeWeight_finite v q :
  v ≠ VUndefined → ToNumber v = Finite q →
  sanitizeWeight v = ofZ (Z.max 0 (Qfloor q)).
Proof.
  intros Hv Hq. unfold sanitizeWeight.
  destruct (strict_equals v VUndefined) eqn:E.
  - destruct v; done.
  - rewrite (Math_floor_finite _ _ Hq). apply Math_max_ofZ.
Qed.

Lemma sanitizeWeight_sanitized v : sanitized (sanitizeWeight v).
Proof.
  unfold sanitizeWeight, sanitized.
  destruct (strict_equals v VUndefined).
  - right; right. exists 1. split; [lia | reflexivity].
  - unfold Math_floor. destruct (ToNumber v) as [| | |q].
    + by left.
    + right; by left.
    + right; right. exists 0. split; [lia | reflexivity].
    + right; right. rewrite Math_max_ofZ.
      exists (Z.max 0 (Qfloor q)). split; [lia | done].
Qed.

Lemma add_sanitized a b : sanitized a → sanitized b → sanitized (add a b).
Proof.
  unfold sanitized, nonneg_integer.
  intros [-> | [-> | (x & Hx & ->)]] [-> | [-> | (y & Hy & ->)]];
    try (by left); try (right; by left).
  right; right. rewrite ofZ_add. exists (x + y). split; [lia | done].
Qed.

(** [Math.max(0, Math.floor(n))] leaves a sanitized number as it is. *)
Lemma sanitize_sanitized n :
  sanitized n → Math_max (ofZ 0) (Math_floor (VNumber n)) = n.
Proof.
  intros [-> | [-> | (z & Hz & ->)]]; try reflexivity.
  rewrite (Math_floor_finite _ (Q2Qc (inject_Z z))) by reflexivity.
  rewrite Qfloor_ofZ, Math_max_ofZ. f_equal. lia.
Qed.

Lemma weightOf_sanitized h item : sanitized (weightOf h item).
Proof.
  unfold weightOf. rewrite getAttunementWeight_run.
  apply sanitizeWeight_sanitized.
Qed.

Create HintDb sanitized.
#[local] Hint Resolve sanitizeWeight_sanitized weightOf_sanitized
  add_sanitized : sanitized.

Lemma sumFrom_sanitized acc ws :
  sanitized acc → Forall sanitized ws → sanitized (sumFrom acc ws).
Proof.
  intros Hacc Hws. revert acc Hacc.
  induction Hws as [|w ws Hw _ IH]; intros acc Hacc; simpl; auto with sanitized.
Qed.

Lemma sumAttunedWeights_sanitized h items :
  sanitized (sumAttunedWeights h items).
Proof.
  apply sumFrom_sanitized.
  - right; right. exists 0. split; [lia | done].
  - apply Forall_forall. intros w (item & -> & _)%list_elem_of_fmap.
    auto with sanitized.
Qed.

#[local] Hint Resolve sumAttunedWeights_sanitized : sanitized.

(** ** Running the methods *)

Lemma filter_isAttuned (items : list Item) :
  List.filter isAttuned items =
  filter (λ item, item_attunement item = Attuned) items.
Proof.
  induction items as [|item rest IH]; [reflexivity|].
  simpl. rewrite filter_cons. destruct (isAttuned item) eqn:E.
  - rewrite decide_True by by apply isAttuned_spec. by rewrite IH.
  - rewrite decide_False; [done|].
    intros H. apply isAttuned_spec in H. congruence.
Qed.

(** [reduce((a, b) => a + b, acc)] adds the elements in order. *)
Lemma fold_left_add_sumFrom ws acc : fold_left add ws acc = sumFrom acc ws.
Proof. revert acc. induction ws as [|w ws IH]; intros acc; simpl; auto. Qed.

Lemma reduce_is_sum h items :
  fold_left add (map (weightOf h) (List.filter isAttuned items)) (ofZ 0) =
  sumAttunedWeights h items.
Proof.
  rewrite fold_left_add_sumFrom, filter_isAttuned. reflexivity.
Qed.

Lemma newBurden_run this h :
  newBurden this h =
  (sumAttunedWeights h (map snd (actor_items (_actor this))), h).
Proof.
  unfold newBurden, mbind, M_bind.
  rewrite mapM_getAttunementWeight. unfold mret, M_ret.
  rewrite map_map. unfold Collection_filter.
  f_equal. apply reduce_is_sum.
Qed.

Lemma updateAttunementBurden_run this h :
  let actor := _actor this in
  let cur := default VUndefined (flags h !! burden_flag actor) in
  let n := sumAttunedWeights h (map snd (actor_items actor)) in
  updateAttunementBurden this h =
  if strict_equals (VNumber n) cur then (None, h)
  else (Some (PromiseOf (ActorDocument (actor_id actor))),
        {| flags := <[burden_flag actor := VNumber n]> (flags h);
           console := console h ++ [transition_report actor cur n];
           updates := updates h ++ [burden_update actor n] |}).
Proof.
  intros actor cur n. unfold updateAttunementBurden, mbind, M_bind.
  rewrite getAttunementBurden_run, newBurden_run.
  fold actor. fold cur. fold n.
  destruct (strict_equals (VNumber n) cur); [reflexivity|].
  cbv beta iota delta [negb AdvancedAttunement.log console_call_
                         setAttunementBurden setFlag mret M_ret].
  rewrite (sanitize_sanitized n) by (subst n; auto with sanitized).
  reflexivity.
Qed.

Lemma sumAttunedWeights_filter h items :
  sumAttunedWeights h items =
  sumFrom (ofZ 0)
    (map (weightOf h)
       (filter (λ item, item_attunement item = Attuned) items)).
Proof. reflexivity. Qed.

Lemma weightOf_stored h item v :
  flags h !! weight_flag item = Some v → weightOf h item = sanitizeWeight v.
Proof. unfold weightOf. rewrite getAttunementWeight_run. simpl. by intros ->. Qed.

Lemma weightOf_absent h item :
  flags h !! weight_flag item = None → weightOf h item = ofZ 1.
Proof. unfold weightOf. rewrite getAttunementWeight_run. simpl. by intros ->. Qed.

(** Bring the two outcomes of [updateAttunementBurden this h] into the
    context as [R]. *)
Ltac run_update this h R :=
  pose proof (updateAttunementBurden_run this h) as R; cbv zeta in R.

(** Decide membership of a pair in a sample collection, given as [H]. *)
Ltac sample_member H :=
  repeat (apply elem_of_cons in H as [H|H]; [by simplify_eq|]);
  by apply elem_of_nil in H.

(** ** The burden computation *)



(** ** The change gate *)

Lemma strict_equals_number_false n v :
  strict_equals (VNumber n) v = false ↔ v ≠ VNumber n ∨ n = NaN.
Proof.
  rewrite <- Bool.not_true_iff_false, strict_equals_number. split.
  - intros Hno. destruct (decide (v = VNumber n)); [|by left].
    destruct (decide (n = NaN)); [by right|]. by destruct Hno.
  - intros [Hv | Hn] [? ?]; done.
Qed.

(** C2, as stated, fails when the new burden and the persisted burden are
    both [NaN].  A non-numeric weight makes the computed burden [NaN]; the
    first update stores it; at the next update the new burden is the
    persisted one, and yet the update writes again and changes the state. *)
Lemma C2_counterexample :
  let this := AdvancedAttunementActorData.new hero in
  let h0 :=
    {| flags := <[weight_flag cloak := VString "heavy"]> weights_only;
       console := []; updates := [] |} in
  let h := snd (updateAttunementBurden this h0) in
  fst (getAttunementBurden this h) = VNumber (fst (newBurden this h))
  ∧ writes_during (updateAttunementBurden this) h = 1%nat
  ∧ snd (updateAttunementBurden this h) ≠ h.
Proof.
  intros this h0 h. split; [|split].
  - vm_compute. reflexivity.
  - vm_compute. reflexivity.
  - intros E. apply (f_equal (λ s, length (updates s))) in E.
    vm_compute in E. discriminate E.
Qed.

(** C2, amended: after computing the new burden, [updateAttunementBurden]
    compares it with the persisted one using [!==].  If the new burden is
    not strictly equal to the persisted one, that is, it is another value
    or it is [NaN], the host receives exactly one [setFlag] call, storing
    the new value under the actor's burden flag, and the transition from
    the old to the new value is logged.  If the new burden is the persisted
    one and is not [NaN], nothing is written and the state is unchanged. *)
Theorem C2_write_exactly_when_changed
    (this : AdvancedAttunementActorData.t) (h : state) :
  let actor := _actor this in
  let cur := fst (getAttunementBurden this h) in
  let n := fst (newBurden this h) in
  (cur ≠ VNumber n ∨ n = NaN →
     updateAttunementBurden this h =
     (Some (PromiseOf (ActorDocument (actor_id actor))),
      {| flags := <[burden_flag actor := VNumber n]> (flags h);
         console := console h ++ [transition_report actor cur n];
         updates := updates h ++ [burden_update actor n] |}))
  ∧ (cur = VNumber n → n ≠ NaN →
     updateAttunementBurden this h = (None, h))
  ∧ (strict_equals (VNumber n) cur = false ↔ cur ≠ VNumber n ∨ n = NaN)
  ∧ (strict_equals (VNumber n) cur = true ↔ cur = VNumber n ∧ n ≠ NaN).
Proof.
  intros actor cur n.
  run_update this h R.
  subst cur n. rewrite getAttunementBurden_run, newBurden_run. simpl fst.
  fold actor. fold actor in R.
  split; [|split; [|split]].
  - intros E%strict_equals_number_false. by rewrite R, E.
  - intros Hcur Hn.
    assert (strict_equals
              (VNumber (sumAttunedWeights h (map snd (actor_items actor))))
              (default VUndefined (flags h !! burden_flag actor)) = true) as E
      by by apply strict_equals_number.
    by rewrite R, E.
  - apply strict_equals_number_false.
  - apply strict_equals_number.
Qed.

Lemma C2_witness :
  let h5 := world [(hero, VNumber (ofZ 5))] in
  let h4 := world [(hero, VNumber (ofZ 4))] in
  updateAttunementBurden (AdvancedAttunementActorData.new hero) h5 =
    (Some (PromiseOf (ActorDocument "hero")),
     {| flags := <[burden_flag hero := VNumber (ofZ 4)]> (flags h5);
        console := [transition_report hero (VNumber (ofZ 5)) (ofZ 4)];
        updates := [burden_update hero (ofZ 4)] |})
  ∧ updateAttunementBurden (AdvancedAttunementActorData.new hero) h4 = (None, h4).
Proof.
  split.
  - apply (proj1 (C2_write_exactly_when_changed
                    (AdvancedAttunementActorData.new hero)
                    (world [(hero, VNumber (ofZ 5))]))).
    left. vm_compute. intros [=].
  - apply (proj1 (proj2 (C2_write_exactly_when_changed
                    (AdvancedAttunementActorData.new hero)
                    (world [(hero, VNumber (ofZ 4))])))).
    + reflexivity.
    + vm_compute. discriminate.
Defined.

(** ** Two updates in succession *)

Lemma burden_flag_not_weight_flag actor item :
  burden_flag actor ≠ weight_flag item.
Proof. unfold burden_flag, weight_flag. congruence. Qed.

Lemma sumAttunedWeights_ext h h' items :
  (∀ item, flags h' !! weight_flag item = flags h !! weight_flag item) →
  sumAttunedWeights h' items = sumAttunedWeights h items.
Proof.
  intros Hw. unfold sumAttunedWeights. f_equal. apply map_ext.
  intros item. unfold weightOf. rewrite !getAttunementWeight_run.
  cbn [fst _item]. by rewrite Hw.
Qed.

Lemma updateTwice_run this h :
  updateTwice this h =
  let p1 := updateAttunementBurden this h in
  let p2 := updateAttunementBurden this (snd p1) in
  ((fst p1, fst p2), snd p2).
Proof.
  unfold updateTwice, mbind, M_bind.
  destruct (updateAttunementBurden this h) as [r1 h1]. simpl.
  destruct (updateAttunementBurden this h1) as [r2 h2]. reflexivity.
Qed.

(** Once the computed burden is what is stored, an update does nothing. *)
Lemma updateAttunementBurden_settled this h :
  let n := sumAttunedWeights h (map snd (actor_items (_actor this))) in
  flags h !! burden_flag (_actor this) = Some (VNumber n) → n ≠ NaN →
  updateAttunementBurden this h = (None, h).
Proof.
  intros n Hcur Hn.
  run_update this h R.
  fold n in R. rewrite Hcur in R. simpl default in R.
  assert (strict_equals (VNumber n) (VNumber n) = true) as E
    by by apply strict_equals_number.
  by rewrite E in R.
Qed.

(** C3, as stated, fails: a character whose stored burden is already the
    computed one (here no attuned item and stored burden 0) sees no write
    at all over two successive updates, not one. *)
Lemma C3_counterexample :
  let h := world [(squire, VNumber (ofZ 0))] in
  let this := AdvancedAttunementActorData.new squire in
  writes_during (updateTwice this) h = 0%nat
  ∧ writes_during (updateTwice this) h ≠ 1%nat
  ∧ updateTwice this h = ((None, None), h).
Proof.
  intros h this.
  assert (updateAttunementBurden this h = (None, h)) as U.
  { apply updateAttunementBurden_settled.
    - vm_compute. reflexivity.
    - vm_compute. discriminate. }
  assert (updateTwice this h = ((None, None), h)) as T.
  { rewrite updateTwice_run. cbv zeta. rewrite U. simpl. by rewrite U. }
  unfold writes_during. rewrite T. simpl snd. rewrite Nat.sub_diag. done.
Qed.

(** C3, amended: when the computed burden is not [NaN], two successive
    calls of [updateAttunementBurden] with nothing changed in between
    perform at most one write in total: one if the stored burden differed
    from the computed one before the first call, none otherwise.  The second
    call computes the same burden, is blocked by the change gate, returns
    nothing and leaves the state as the first call left it. *)
Theorem C3_second_update_is_noop
    (this : AdvancedAttunementActorData.t) (h : state) :
  let actor := _actor this in
  let cur := fst (getAttunementBurden this h) in
  let n := fst (newBurden this h) in
  let h1 := snd (updateAttunementBurden this h) in
  n ≠ NaN →
  fst (newBurden this h1) = n
  ∧ updateAttunementBurden this h1 = (None, h1)
  ∧ snd (updateTwice this h) = h1
  ∧ updates (snd (updateTwice this h)) =
      updates h ++
      (if strict_equals (VNumber n) cur then [] else [burden_update actor n])
  ∧ writes_during (updateTwice this) h =
      (if strict_equals (VNumber n) cur then 0 else 1)%nat
  ∧ (writes_during (updateTwice this) h ≤ 1)%nat.
Proof.
  intros actor cur n h1. subst cur n.
  rewrite getAttunementBurden_run, newBurden_run. simpl fst. fold actor.
  set (n := sumAttunedWeights h (map snd (actor_items actor))).
  set (cur := default VUndefined (flags h !! burden_flag actor)).
  intros Hn.
  run_update this h R. fold actor n cur in R.
  assert (fst (newBurden this h1) = n ∧
          updateAttunementBurden this h1 = (None, h1) ∧
          updates h1 =
            updates h ++
            (if strict_equals (VNumber n) cur then []
             else [burden_update actor n])) as (Hsame & Hnoop & Hupd).
  { subst h1. rewrite R. destruct (strict_equals (VNumber n) cur) eqn:E.
    - simpl snd. rewrite newBurden_run. split; [done|]. split; [by rewrite R|].
      by rewrite app_nil_r.
    - simpl snd. rewrite newBurden_run. simpl fst.
      match goal with |- context [sumAttunedWeights ?s _] => set (h1 := s) end.
      assert (sumAttunedWeights h1 (map snd (actor_items actor)) = n) as Hsum.
      { apply sumAttunedWeights_ext. intros item. subst h1. simpl.
        apply lookup_insert_ne, burden_flag_not_weight_flag. }
      split; [done|]. split; [|done].
      apply updateAttunementBurden_settled; fold actor; rewrite Hsum; [|done].
      subst h1. simpl. apply lookup_insert_eq. }
  split; [done|]. split; [done|].
  assert (snd (updateTwice this h) = h1) as Htwice.
  { rewrite updateTwice_run. cbv zeta. simpl snd. fold h1. by rewrite Hnoop. }
  split; [done|]. rewrite Htwice. split; [done|].
  unfold writes_during. rewrite Htwice, Hupd, length_app.
  destruct (strict_equals _ _); simpl; split; lia.
Qed.

Lemma C3_witness :
  let this := AdvancedAttunementActorData.new hero in
  let h := world [(hero, VNumber (ofZ 5))] in
  updateAttunementBurden this (snd (updateAttunementBurden this h)) =
    (None, snd (updateAttunementBurden this h))
  ∧ writes_during (updateTwice this) h = 1%nat.
Proof.
  destruct (C3_second_update_is_noop
              (AdvancedAttunementActorData.new hero)
              (world [(hero, VNumber (ofZ 5))]))
    as (_ & Hnoop & _ & _ & Hwrites & _).
  - vm_compute. discriminate.
  - split; [exact Hnoop | exact Hwrites].
Defined.

(** With a weight that converts to [NaN], each update writes again. *)
Example updateTwice_NaN_writes_twice :
  let h :=
    {| flags := <[weight_flag cloak := VString "heavy"]> weights_only;
       console := []; updates := [] |} in
  writes_during (updateTwice (AdvancedAttunementActorData.new hero)) h = 2%nat.
Proof. vm_compute. reflexivity. Qed.

(** ** Item weights *)

(** C4: [getAttunementWeight] changes nothing in the state.  With no
    stored weight it returns the default weight 1; with a stored value it
    returns [Math.max(0, Math.floor(value))], which for a finite number is
    the larger of 0 and its floor: a stored -2.7 gives 0 and a stored 3.9
    gives 3. *)
Theorem C4_getAttunementWeight_default_floor_clamp
    (this : AdvancedAttunementItemData.t) (h : state) :
  let stored := flags h !! weight_flag (_item this) in
  let weight := fst (getAttunementWeight this h) in
  snd (getAttunementWeight this h) = h
  ∧ (stored = None → weight = DEFAULT_WEIGHT ∧ weight = ofZ 1)
  ∧ (∀ v, stored = Some v → v ≠ VUndefined →
       weight = Math_max (ofZ 0) (Math_floor v))
  ∧ (∀ q, stored = Some (VNumber (Finite q)) →
       weight = ofZ (Z.max 0 (Qfloor q)))
  ∧ (stored = Some (frac (-27) 10) → weight = ofZ 0)
  ∧ (stored = Some (frac 39 10) → weight = ofZ 3).
Proof.
  intros stored weight. subst stored weight.
  rewrite getAttunementWeight_run. simpl fst. simpl snd.
  split; [reflexivity|]. split; [by intros ->|]. split.
  { intros v -> Hv. simpl. unfold sanitizeWeight. by destruct v. }
  split; [|split]; [intros q ->|intros ->|intros ->]; simpl default.
  - by apply sanitizeWeight_finite.
  - vm_compute. reflexivity.
  - vm_compute. reflexivity.
Qed.

Lemma C4_witness :
  let h :=
    {| flags := <[weight_flag sword := frac (-27) 10]>
                (<[weight_flag ring := frac 39 10]> ∅);
       console := []; updates := [] |} in
  getAttunementWeight (AdvancedAttunementItemData.new sword) h = (ofZ 0, h)
  ∧ getAttunementWeight (AdvancedAttunementItemData.new ring) h = (ofZ 3, h)
  ∧ getAttunementWeight (AdvancedAttunementItemData.new cloak) h = (ofZ 1, h).
Proof.
  intros h.
  destruct (C4_getAttunementWeight_default_floor_clamp
              (AdvancedAttunementItemData.new sword) h)
    as (S1 & _ & _ & _ & W1 & _).
  destruct (C4_getAttunementWeight_default_floor_clamp
              (AdvancedAttunementItemData.new ring) h)
    as (S2 & _ & _ & _ & _ & W2).
  destruct (C4_getAttunementWeight_default_floor_clamp
              (AdvancedAttunementItemData.new cloak) h)
    as (S3 & W3 & _).
  specialize (W1 eq_refl). specialize (W2 eq_refl).
  destruct (W3 eq_refl) as [_ W3'].
  split; [|split]; apply injective_projections; assumption.
Defined.

Lemma sanitizeWeight_any_convertible v :
  sanitizeWeight_any (Convertible v) = Normal (sanitizeWeight v).
Proof.
  unfold sanitizeWeight_any, sanitizeWeight, is_undefined.
  by destruct (strict_equals v VUndefined).
Qed.

(** C5, as stated, fails twice over.  A stored weight that is not numeric,
    here the string [abc], comes back from [getAttunementWeight] as [NaN],
    which is not a non-negative integer; and a supplied BigInt makes
    [sanitizeWeight] throw a [TypeError] instead of degrading to a
    default. *)
Lemma C5_counterexample :
  let h :=
    {| flags := <[weight_flag cloak := VString "abc"]> ∅;
       console := []; updates := [] |} in
  sanitizeWeight (VString "abc") = NaN
  ∧ fst (getAttunementWeight (AdvancedAttunementItemData.new cloak) h) = NaN
  ∧ ¬ nonneg_integer
        (fst (getAttunementWeight (AdvancedAttunementItemData.new cloak) h))
  ∧ sanitizeWeight_any (VBigInt 10) = Throw TypeError.
Proof.
  intros h.
  assert (fst (getAttunementWeight (AdvancedAttunementItemData.new cloak) h) = NaN)
    as E by (vm_compute; reflexivity).
  split; [vm_compute; reflexivity|]. split; [exact E|].
  split; [|reflexivity].
  rewrite E. intros (z & _ & Hz). discriminate Hz.
Qed.

(** C5, amended: [sanitizeWeight] throws a [TypeError] exactly on the
    values the language cannot convert to a number: a BigInt, a Symbol, an
    object whose conversion to a primitive fails.  On every other stored or
    supplied value it returns a number, and [getAttunementWeight] returns
    that number for the stored value and changes nothing.  The number is 1
    for an absent value; a non-negative integer when the value converts to a
    finite number or to [-Infinity]; [NaN] when the value converts to [NaN]
    (a non-numeric string, a plain object, [NaN] itself); and [+Infinity]
    when it converts to [+Infinity]. *)
Theorem C5_weight_is_sanitized (w : any) :
  (sanitizeWeight_any w = Throw TypeError ↔ ∀ v, w ≠ Convertible v)
  ∧ ∀ v, w = Convertible v →
      sanitizeWeight_any w = Normal (sanitizeWeight v)
      ∧ sanitized (sanitizeWeight v)
      ∧ (v = VUndefined → sanitizeWeight v = ofZ 1)
      ∧ (v ≠ VUndefined → (∃ q, ToNumber v = Finite q) →
           nonneg_integer (sanitizeWeight v))
      ∧ (v ≠ VUndefined → ToNumber v = NegInfinity → sanitizeWeight v = ofZ 0)
      ∧ (v ≠ VUndefined → ToNumber v = NaN → sanitizeWeight v = NaN)
      ∧ (ToNumber v = PosInfinity → sanitizeWeight v = PosInfinity)
      ∧ (∀ this h,
           flags h !! weight_flag (_item this) = Some v →
           getAttunementWeight this h = (sanitizeWeight v, h)).
Proof.
  split.
  { destruct w as [v| | |]; split; try done.
    - by rewrite sanitizeWeight_any_convertible.
    - intros Hno. by destruct (Hno v). }
  intros v ->. split; [apply sanitizeWeight_any_convertible|].
  split; [apply sanitizeWeight_sanitized|].
  split; [by intros ->|].
  assert (v ≠ VUndefined → sanitizeWeight v = Math_max (ofZ 0) (Math_floor v))
    as Hdef by (intros Hv; unfold sanitizeWeight; by destruct v).
  split.
  { intros Hv [q Hq]. rewrite (sanitizeWeight_finite _ _ Hv Hq).
    exists (Z.max 0 (Qfloor q)). split; [lia | done]. }
  split; [intros Hv E; rewrite Hdef by done; unfold Math_floor; by rewrite E|].
  split; [intros Hv E; rewrite Hdef by done; unfold Math_floor; by rewrite E|].
  split.
  { intros E. rewrite Hdef by (intros ->; discriminate E).
    unfold Math_floor. by rewrite E. }
  intros this h Hv. rewrite getAttunementWeight_run. by rewrite Hv.
Qed.

Lemma C5_witness :
  sanitizeWeight_any (Convertible (VString " 3.9 ")) = Normal (ofZ 3)
  ∧ nonneg_integer (sanitizeWeight (VString "1e2"))
  ∧ sanitizeWeight (VString "1e400") = PosInfinity
  ∧ sanitizeWeight (VObject 7 "[object Object]") = NaN
  ∧ sanitizeWeight_any (VSymbol "weight") = Throw TypeError.
Proof.
  destruct (C5_weight_is_sanitized (Convertible (VString " 3.9 ")))
    as (_ & H39).
  destruct (H39 _ eq_refl) as (Hrun & _).
  destruct (C5_weight_is_sanitized (Convertible (VString "1e2")))
    as (_ & H100).
  destruct (H100 _ eq_refl) as (_ & _ & _ & Hfin & _).
  destruct (C5_weight_is_sanitized (Convertible (VString "1e400")))
    as (_ & Hbig).
  destruct (Hbig _ eq_refl) as (_ & _ & _ & _ & _ & _ & Hinf & _).
  destruct (C5_weight_is_sanitized (Convertible (VObject 7 "[object Object]")))
    as (_ & Hobj).
  destruct (Hobj _ eq_refl) as (_ & _ & _ & _ & _ & Hnan & _).
  destruct (C5_weight_is_sanitized (VSymbol "weight")) as (Hthrow & _).
  split; [|split; [|split; [|split]]].
  - rewrite Hrun. f_equal.
  - apply Hfin; [discriminate|]. exists (Q2Qc (inject_Z 100)).
    vm_compute. reflexivity.
  - apply Hinf. vm_compute. reflexivity.
  - apply Hnan; [discriminate|]. vm_compute. reflexivity.
  - apply Hthrow. intros v. discriminate.
Defined.

(** ** Lookups *)

Lemma Collection_get_Some {A} (c : Collection A) key x :
  NoDup (c.*1) → Collection_get c key = Some x ↔ (key, x) ∈ c.
Proof.
  induction c as [|[k y] c IH]; simpl; intros Hnd.
  - split; [done | by intros ?%elem_of_nil].
  - apply NoDup_cons in Hnd as [Hk Hnd].
    destruct (String.eqb k key) eqn:E.
    + apply String.eqb_eq in E as ->. split.
      * intros [= ->]. apply list_elem_of_here.
      * intros [[= ->] | Hin]%elem_of_cons; [done|].
        exfalso. apply Hk. apply list_elem_of_fmap. by exists (key, x).
    + apply String.eqb_neq in E. rewrite (IH Hnd). split.
      * intros Hin. by apply list_elem_of_further.
      * intros [[= -> ->] | Hin]%elem_of_cons; done.
Qed.

Lemma isAttunable_spec item :
  isAttunable item = true ↔
  item_attunement item = RequiresAttunement ∨ item_attunement item = Attuned.
Proof.
  unfold isAttunable. rewrite orb_true_iff, isAttuned_spec.
  unfold RequiresAttunement.
  destruct (item_attunement item) as [| | |n| |]; simpl;
    try (split; intros [|]; done).
  rewrite Number_equal_spec. split.
  - intros [[-> _]|]; auto.
  - intros [[= ->]|]; auto.
Qed.

Lemma isPlayerCharacter_spec actor :
  isPlayerCharacter actor = true ↔ actor_type actor = "character"%string.
Proof. apply String.eqb_eq. Qed.

(** C6: [getItem] returns a wrapper of the identified item exactly when
    that item is among the actor's owned items and is attunable, that is,
    its status is RequiresAttunement or Attuned; for an id that is not
    owned, or owned by an item that is not attunable, it returns the
    absence value.  It is a total function: no case raises an error. *)
Theorem C6_getItem_iff_owned_and_attunable
    (this : AdvancedAttunementActorData.t) (itemId : string) :
  let items := actor_items (_actor this) in
  let eligible item :=
    (itemId, item) ∈ items
    ∧ (item_attunement item = RequiresAttunement
       ∨ item_attunement item = Attuned) in
  NoDup (items.*1) →
  (∀ r, getItem this itemId = Some r ↔
        ∃ item, eligible item ∧ r = AdvancedAttunementItemData.new item)
  ∧ (getItem this itemId = None ↔ ¬ ∃ item, eligible item).
Proof.
  intros items eligible Hnd. unfold getItem. fold items.
  destruct (Collection_get items itemId) as [item|] eqn:G.
  - apply (Collection_get_Some _ _ _ Hnd) in G.
    assert (∀ item', (itemId, item') ∈ items → item' = item) as Huniq.
    { intros item' Hin. apply (Collection_get_Some _ _ _ Hnd) in Hin, G.
      congruence. }
    destruct (isAttunable item) eqn:E.
    + apply isAttunable_spec in E. split.
      * intros r. split.
        -- intros [= <-]. by exists item.
        -- intros (item' & [Hin _] & ->). by rewrite (Huniq _ Hin).
      * split; [done|]. intros Hno. exfalso. apply Hno. by exists item.
    + split.
      * intros r. split; [done|].
        intros (item' & [Hin Hst] & ->). rewrite (Huniq _ Hin) in Hst.
        apply isAttunable_spec in Hst. congruence.
      * split; [|done]. intros _ (item' & Hin & Hst).
        rewrite (Huniq _ Hin) in Hst. apply isAttunable_spec in Hst. congruence.
  - assert (∀ item, (itemId, item) ∉ items) as Hnone.
    { intros item Hin. apply (Collection_get_Some _ _ _ Hnd) in Hin. congruence. }
    split.
    + intros r. split; [done|]. intros (item & [Hin _] & _). by apply Hnone in Hin.
    + split; [|done]. intros _ (item & Hin & _). by apply Hnone in Hin.
Qed.

Lemma C6_witness :
  let this := AdvancedAttunementActorData.new hero in
  getItem this "wand" = Some (AdvancedAttunementItemData.new wand)
  ∧ getItem this "rope" = None
  ∧ getItem this "lute" = None.
Proof.
  intros this.
  assert (NoDup ((actor_items hero).*1)) as Hnd
    by (apply (bool_decide_unpack _); vm_compute; exact I).
  split; [|split].
  - apply (proj1 (C6_getItem_iff_owned_and_attunable this "wand" Hnd)).
    exists wand. split; [|reflexivity]. split; [|by left].
    do 3 apply list_elem_of_further. apply list_elem_of_here.
  - apply (proj2 (C6_getItem_iff_owned_and_attunable this "rope" Hnd)).
    intros (item & Hin & Hst).
    assert (item = rope) as ->.
    { simpl in Hin. sample_member Hin. }
    destruct Hst as [Hst|Hst]; discriminate Hst.
  - apply (proj2 (C6_getItem_iff_owned_and_attunable this "lute" Hnd)).
    intros (item & Hin & _). simpl in Hin. sample_member Hin.
Defined.

(** C7: [getActor] returns a wrapper of the identified actor exactly when
    that actor is in [game.actors] and its type is [character]; for an id
    that is missing, or that names an actor of another type such as an NPC,
    it returns the absence value, not an error. *)
Theorem C7_getActor_iff_player_character
    (actors : Collection Actor) (actorId : string) :
  let eligible actor :=
    (actorId, actor) ∈ actors ∧ actor_type actor = "character"%string in
  NoDup (actors.*1) →
  (∀ r, getActor actors actorId = Some r ↔
        ∃ actor, eligible actor ∧ r = AdvancedAttunementActorData.new actor)
  ∧ (getActor actors actorId = None ↔ ¬ ∃ actor, eligible actor).
Proof.
  intros eligible Hnd. unfold getActor.
  destruct (Collection_get actors actorId) as [actor|] eqn:G.
  - apply (Collection_get_Some _ _ _ Hnd) in G.
    assert (∀ actor', (actorId, actor') ∈ actors → actor' = actor) as Huniq.
    { intros actor' Hin. apply (Collection_get_Some _ _ _ Hnd) in Hin, G.
      congruence. }
    destruct (isPlayerCharacter actor) eqn:E.
    + apply isPlayerCharacter_spec in E. split.
      * intros r. split.
        -- intros [= <-]. by exists actor.
        -- intros (actor' & [Hin _] & ->). by rewrite (Huniq _ Hin).
      * split; [done|]. intros Hno. exfalso. apply Hno. by exists actor.
    + split.
      * intros r. split; [done|].
        intros (actor' & [Hin Hty] & ->). rewrite (Huniq _ Hin) in Hty.
        apply isPlayerCharacter_spec in Hty. congruence.
      * split; [|done]. intros _ (actor' & Hin & Hty).
        rewrite (Huniq _ Hin) in Hty.
        apply isPlayerCharacter_spec in Hty. congruence.
  - assert (∀ actor, (actorId, actor) ∉ actors) as Hnone.
    { intros actor Hin. apply (Collection_get_Some _ _ _ Hnd) in Hin. congruence. }
    split.
    + intros r. split; [done|]. intros (actor & [Hin _] & _). by apply Hnone in Hin.
    + split; [|done]. intros _ (actor & Hin & _). by apply Hnone in Hin.
Qed.

Lemma C7_witness :
  getActor game_actors "hero" = Some (AdvancedAttunementActorData.new hero)
  ∧ getActor game_actors "goblin" = None
  ∧ getActor game_actors "nobody" = None.
Proof.
  assert (NoDup (game_actors.*1)) as Hnd
    by (apply (bool_decide_unpack _); vm_compute; exact I).
  split; [|split].
  - apply (proj1 (C7_getActor_iff_player_character game_actors "hero" Hnd)).
    exists hero. split; [|reflexivity]. split; [|reflexivity].
    apply list_elem_of_here.
  - apply (proj2 (C7_getActor_iff_player_character game_actors "goblin" Hnd)).
    intros (actor & Hin & Hty).
    assert (actor = goblin) as ->.
    { unfold game_actors in Hin. sample_member Hin. }
    discriminate Hty.
  - apply (proj2 (C7_getActor_iff_player_character game_actors "nobody" Hnd)).
    intros (actor & Hin & _). unfold game_actors in Hin. sample_member Hin.
Defined.

(** ** Reading and first writing of the burden *)

(** C8: [getAttunementBurden] returns the stored burden flag as it is,
    with no sanitization, default or clamp, and changes nothing.  When no
    burden was ever written the result is [undefined]; there is no default
    like the weight's 1.  An absent burden stays absent through reads of
    the burden, reads of any weight and writes of any weight. *)
Theorem C8_getAttunementBurden_verbatim
    (this : AdvancedAttunementActorData.t) (h : state) :
  let key := burden_flag (_actor this) in
  snd (getAttunementBurden this h) = h
  ∧ (∀ v, flags h !! key = Some v → fst (getAttunementBurden this h) = v)
  ∧ (flags h !! key = None → fst (getAttunementBurden this h) = VUndefined)
  ∧ (flags h !! key = None →
       flags (snd (getAttunementBurden this h)) !! key = None
       ∧ (∀ d, flags (snd (getAttunementWeight d h)) !! key = None)
       ∧ (∀ d w, flags (snd (setAttunementWeight d w h)) !! key = None)).
Proof.
  intros key. rewrite getAttunementBurden_run. simpl fst. simpl snd.
  fold key. split; [reflexivity|]. split; [by intros v ->|].
  split; [by intros ->|]. intros Habs. split; [done|]. split.
  - intros d. exact Habs.
  - intros d w. unfold setAttunementWeight, setFlag. simpl.
    rewrite lookup_insert_ne; [done|].
    intros E. symmetry in E. by apply burden_flag_not_weight_flag in E.
Qed.

Lemma C8_witness :
  let this := AdvancedAttunementActorData.new hero in
  fst (getAttunementBurden this (world [(hero, frac (-27) 10)])) = frac (-27) 10
  ∧ fst (getAttunementBurden this (world [])) = VUndefined
  ∧ fst (getAttunementBurden this
           (snd (setAttunementWeight (AdvancedAttunementItemData.new cloak)
                   (VNumber (ofZ 3)) (world [])))) = VUndefined.
Proof.
  intros this.
  destruct (C8_getAttunementBurden_verbatim this
              (world [(hero, frac (-27) 10)])) as (_ & Hv & _).
  destruct (C8_getAttunementBurden_verbatim this (world []))
    as (_ & _ & Hundef & Hstay).
  split; [exact (Hv _ eq_refl)|]. split; [exact (Hundef eq_refl)|].
  destruct (Hstay eq_refl) as (_ & _ & Hset).
  specialize (Hset (AdvancedAttunementItemData.new cloak) (VNumber (ofZ 3))).
  rewrite getAttunementBurden_run. subst this. cbn [fst _actor] in *.
  by rewrite Hset.
Defined.

(** C9: when the burden flag is absent, [updateAttunementBurden] always
    writes: the computed number is never strictly equal to [undefined], so
    the host receives exactly one [setFlag] call with the computed burden
    and the transition from [undefined] is logged.  In particular the first
    update of a character with no attuned item writes 0. *)
Theorem C9_first_update_always_writes
    (this : AdvancedAttunementActorData.t) (h : state) :
  let actor := _actor this in
  let n := fst (newBurden this h) in
  flags h !! burden_flag actor = None →
  updateAttunementBurden this h =
    (Some (PromiseOf (ActorDocument (actor_id actor))),
     {| flags := <[burden_flag actor := VNumber n]> (flags h);
        console := console h ++ [transition_report actor VUndefined n];
        updates := updates h ++ [burden_update actor n] |})
  ∧ writes_during (updateAttunementBurden this) h = 1%nat
  ∧ (filter (λ item, item_attunement item = Attuned)
            (map snd (actor_items actor)) = [] →
     n = ofZ 0
     ∧ flags (snd (updateAttunementBurden this h)) !! burden_flag actor
       = Some (VNumber (ofZ 0))).
Proof.
  intros actor n Habs. subst n. rewrite newBurden_run. simpl fst.
  fold actor.
  run_update this h R.
  fold actor in R. rewrite Habs in R. simpl in R.
  split; [exact R|]. split.
  - unfold writes_during. rewrite R. simpl. rewrite length_app. simpl. lia.
  - intros Hnone. rewrite sumAttunedWeights_filter in *. rewrite Hnone in *.
    simpl in *. split; [done|]. rewrite R. simpl. apply lookup_insert_eq.
Qed.

Lemma C9_witness :
  let this := AdvancedAttunementActorData.new squire in
  writes_during (updateAttunementBurden this) (world []) = 1%nat
  ∧ flags (snd (updateAttunementBurden this (world []))) !! burden_flag squire
    = Some (VNumber (ofZ 0)).
Proof.
  intros this.
  destruct (C9_first_update_always_writes this (world []) eq_refl)
    as (_ & Hone & Hzero).
  split; [exact Hone|]. exact (proj2 (Hzero eq_refl)).
Defined.

(** ** What an update can change *)

(** C10: [updateAttunementBurden] changes at most the burden flag of its
    actor.  Every other flag, and so every item's weight flag, keeps its
    value; reading a weight changes nothing; every [setFlag] call the host
    receives during the update addresses that burden flag; and when the
    update writes, the value stored is exactly the computed sum, because
    [Math.max(0, Math.floor(v))] returns the sum of the weights as it is. *)
Theorem C10_update_changes_only_the_burden_flag
    (this : AdvancedAttunementActorData.t) (h : state) :
  let actor := _actor this in
  let n := fst (newBurden this h) in
  let h' := snd (updateAttunementBurden this h) in
  (∀ key, key ≠ burden_flag actor → flags h' !! key = flags h !! key)
  ∧ (∀ item, flags h' !! weight_flag item = flags h !! weight_flag item)
  ∧ (∀ d, snd (getAttunementWeight d h) = h)
  ∧ (h' = h
     ∨ (flags h' = <[burden_flag actor := VNumber n]> (flags h)
        ∧ updates h' = updates h ++ [burden_update actor n]))
  ∧ Math_max (ofZ 0) (Math_floor (VNumber n)) = n.
Proof.
  intros actor n h'. subst n h'. rewrite newBurden_run. simpl fst.
  fold actor.
  run_update this h R.
  fold actor in R. rewrite R. clear R.
  set (n := sumAttunedWeights h (map snd (actor_items actor))).
  split; [|split; [|split; [|split]]].
  - intros key Hkey. destruct (strict_equals _ _); simpl; [done|].
    by apply lookup_insert_ne.
  - intros item. destruct (strict_equals _ _); simpl; [done|].
    apply lookup_insert_ne, burden_flag_not_weight_flag.
  - intros d. by rewrite getAttunementWeight_run.
  - destruct (strict_equals _ _); simpl; [by left | by right].
  - apply sanitize_sanitized. subst n. auto with sanitized.
Qed.

Lemma C10_witness :
  let this := AdvancedAttunementActorData.new hero in
  let h := world [(hero, VNumber (ofZ 5))] in
  let h' := snd (updateAttunementBurden this h) in
  flags h' !! weight_flag sword = Some (VNumber (ofZ 2))
  ∧ flags h' !! burden_flag squire = None
  ∧ Math_max (ofZ 0) (Math_floor (VNumber (ofZ 4))) = ofZ 4.
Proof.
  intros this h h'.
  destruct (C10_update_changes_only_the_burden_flag this h)
    as (Hother & Hweights & _ & _ & Hid).
  split; [|split].
  - subst h'. by rewrite Hweights.
  - subst h'. rewrite Hother; [reflexivity | discriminate].
  - exact Hid.
Defined.

(** ** Writing and re-reading the flags *)

Lemma sanitizeWeight_number n :
  sanitizeWeight (VNumber n) = Math_max (ofZ 0) (Math_floor (VNumber n)).
Proof. reflexivity. Qed.

Lemma sanitizeWeight_again v :
  sanitizeWeight (VNumber (sanitizeWeight v)) = sanitizeWeight v.
Proof.
  rewrite sanitizeWeight_number. apply sanitize_sanitized. auto with sanitized.
Qed.

(** X1: sanitizing a weight that [sanitizeWeight] already produced changes
    nothing, whatever the original value was; the result of a second pass is
    again [NaN], [+Infinity] or a non-negative integer. *)
Theorem X1_sanitizeWeight_idempotent (v : value) :
  sanitizeWeight (VNumber (sanitizeWeight v)) = sanitizeWeight v
  ∧ sanitized (sanitizeWeight (VNumber (sanitizeWeight v))).
Proof. split; [apply sanitizeWeight_again | auto with sanitized]. Qed.

Lemma setAttunementWeight_run d w h :
  setAttunementWeight d w h =
  (PromiseOf (ItemDocument (item_id (_item d))),
   {| flags := <[weight_flag (_item d) := VNumber (sanitizeWeight w)]> (flags h);
      console := console h;
      updates := updates h ++
        [{| upd_document := ItemDocument (item_id (_item d));
            upd_scope := ID; upd_key := ATTUNEMENT_WEIGHT;
            upd_value := VNumber (sanitizeWeight w) |}] |}).
Proof. reflexivity. Qed.

Lemma setAttunementBurden_run a b h :
  setAttunementBurden a b h =
  (PromiseOf (ActorDocument (actor_id (_actor a))),
   {| flags := <[burden_flag (_actor a) :=
                   VNumber (Math_max (ofZ 0) (Math_floor b))]> (flags h);
      console := console h;
      updates := updates h ++
        [burden_update (_actor a) (Math_max (ofZ 0) (Math_floor b))] |}).
Proof. reflexivity. Qed.

(** X2: after [setAttunementWeight] with any value, [getAttunementWeight]
    on the same item returns the sanitized value that was supplied, and the
    flag holds that number.  Supplying [undefined] does not clear the flag:
    it stores the default weight 1. *)
Theorem X2_setAttunementWeight_then_get
    (d : AdvancedAttunementItemData.t) (w : value) (h : state) :
  let h' := snd (setAttunementWeight d w h) in
  getAttunementWeight d h' = (sanitizeWeight w, h')
  ∧ flags h' !! weight_flag (_item d) = Some (VNumber (sanitizeWeight w))
  ∧ (w = VUndefined →
     flags h' !! weight_flag (_item d) = Some (VNumber (ofZ 1))).
Proof.
  intros h'. subst h'. rewrite setAttunementWeight_run. simpl snd.
  rewrite getAttunementWeight_run. cbn [flags].
  rewrite lookup_insert_eq. simpl default.
  rewrite sanitizeWeight_again.
  split; [reflexivity|]. split; [reflexivity|]. by intros ->.
Qed.

Lemma X2_witness :
  let d := AdvancedAttunementItemData.new cloak in
  let h' := snd (setAttunementWeight d VUndefined (world [])) in
  flags h' !! weight_flag cloak = Some (VNumber (ofZ 1))
  ∧ fst (getAttunementWeight d h') = ofZ 1.
Proof.
  intros d h'.
  destruct (X2_setAttunementWeight_then_get d VUndefined (world []))
    as (Hget & _ & Hone).
  split; [exact (Hone eq_refl)|]. subst h'. by rewrite Hget.
Defined.

(** X3: [setAttunementWeight] sends the host exactly one [setFlag] call,
    for the weight flag of its item, and nothing to the console.  Every
    other flag keeps its value, so the weight of an item with another id and
    the stored burden of every actor read as before. *)
Theorem X3_setAttunementWeight_frame
    (d : AdvancedAttunementItemData.t) (w : value) (h : state) :
  let h' := snd (setAttunementWeight d w h) in
  (∀ key, key ≠ weight_flag (_item d) → flags h' !! key = flags h !! key)
  ∧ console h' = console h
  ∧ writes_during (setAttunementWeight d w) h = 1%nat
  ∧ (∀ u, updates h' = updates h ++ [u] →
       upd_document u = ItemDocument (item_id (_item d))
       ∧ upd_key u = ATTUNEMENT_WEIGHT)
  ∧ (∀ a, fst (getAttunementBurden a h') = fst (getAttunementBurden a h))
  ∧ (∀ d', item_id (_item d') ≠ item_id (_item d) →
       fst (getAttunementWeight d' h') = fst (getAttunementWeight d' h)).
Proof.
  intros h'. subst h'. rewrite setAttunementWeight_run. simpl snd.
  assert (∀ key, key ≠ weight_flag (_item d) →
            <[weight_flag (_item d) := VNumber (sanitizeWeight w)]> (flags h)
              !! key = flags h !! key) as Hframe
    by (intros key Hkey; by apply lookup_insert_ne).
  split; [exact Hframe|]. split; [reflexivity|]. split.
  { unfold writes_during. rewrite setAttunementWeight_run. simpl.
    rewrite length_app. simpl. lia. }
  split.
  { cbn [updates]. intros u Hu. apply app_inv_head in Hu.
    injection Hu as <-. by split. }
  split.
  - intros a. rewrite !getAttunementBurden_run. cbn [fst flags].
    rewrite Hframe; [done|]. apply burden_flag_not_weight_flag.
  - intros d' Hid. rewrite !getAttunementWeight_run. cbn [fst flags].
    rewrite Hframe; [done|]. unfold weight_flag. congruence.
Qed.

Lemma X3_witness :
  let d := AdvancedAttunementItemData.new cloak in
  let h' := snd (setAttunementWeight d (VNumber (ofZ 3)) (world [])) in
  fst (getAttunementWeight (AdvancedAttunementItemData.new sword) h') = ofZ 2
  ∧ flags h' !! weight_flag ring = Some (VNumber (ofZ 1)).
Proof.
  intros d h'.
  destruct (X3_setAttunementWeight_frame d (VNumber (ofZ 3)) (world []))
    as (Hother & _ & _ & _ & _ & Hweights).
  split.
  - subst h'. rewrite (Hweights (AdvancedAttunementItemData.new sword));
      [reflexivity | discriminate].
  - subst h'. rewrite Hother; [reflexivity | discriminate].
Defined.

(** X4: after [setAttunementBurden] with any value, [getAttunementBurden]
    returns the number [Math.max(0, Math.floor(value))] that was stored.
    That number is a non-negative integer when the value converts to a
    finite number; but the burden has no default: supplying [undefined]
    stores [NaN], where the weight setter would store 1. *)
Theorem X4_setAttunementBurden_then_get
    (this : AdvancedAttunementActorData.t) (b : value) (h : state) :
  let h' := snd (setAttunementBurden this b h) in
  let stored := Math_max (ofZ 0) (Math_floor b) in
  getAttunementBurden this h' = (VNumber stored, h')
  ∧ sanitized stored
  ∧ (∀ q, ToNumber b = Finite q → stored = ofZ (Z.max 0 (Qfloor q)))
  ∧ (b = VUndefined → stored = NaN)
  ∧ writes_during (setAttunementBurden this b) h = 1%nat
  ∧ (∀ key, key ≠ burden_flag (_actor this) →
       flags h' !! key = flags h !! key).
Proof.
  intros h' stored. subst h'. rewrite setAttunementBurden_run. simpl snd.
  fold stored. rewrite getAttunementBurden_run. cbn [flags].
  rewrite lookup_insert_eq. split; [reflexivity|]. split.
  { subst stored. unfold Math_floor. destruct (ToNumber b) as [| | |q].
    - by left.
    - right; by left.
    - right; right. exists 0. split; [lia | reflexivity].
    - right; right. rewrite Math_max_ofZ.
      exists (Z.max 0 (Qfloor q)). split; [lia | done]. }
  split.
  { intros q Hq. subst stored. rewrite (Math_floor_finite _ _ Hq).
    apply Math_max_ofZ. }
  split; [by intros ->|]. split.
  - unfold writes_during. rewrite setAttunementBurden_run. simpl.
    rewrite length_app. simpl. lia.
  - intros key Hkey. by apply lookup_insert_ne.
Qed.

Lemma X4_witness :
  let this := AdvancedAttunementActorData.new hero in
  fst (getAttunementBurden this
         (snd (setAttunementBurden this (frac 39 10) (world [])))) =
    VNumber (ofZ 3)
  ∧ fst (getAttunementBurden this
           (snd (setAttunementBurden this VUndefined (world [])))) =
    VNumber NaN.
Proof.
  intros this.
  destruct (X4_setAttunementBurden_then_get this (frac 39 10) (world []))
    as (Hget1 & _ & Hfin & _).
  destruct (X4_setAttunementBurden_then_get this VUndefined (world []))
    as (Hget2 & _ & _ & Hundef & _).
  split.
  - rewrite Hget1. cbn [fst]. by rewrite (Hfin (Q2Qc (39 # 10)) eq_refl).
  - rewrite Hget2. cbn [fst]. by rewrite (Hundef eq_refl).
Defined.

(** ** The stored burden against the computed one *)

Lemma newBurden_foldr this h :
  fst (newBurden this h) =
  sumFrom (ofZ 0)
    (map (weightOf h)
       (filter (λ item, item_attunement item = Attuned)
               (map snd (actor_items (_actor this))))).
Proof. by rewrite newBurden_run. Qed.

Lemma weightOf_flag h h' item :
  flags h' !! weight_flag item = flags h !! weight_flag item →
  weightOf h' item = weightOf h item.
Proof.
  intros E. unfold weightOf. rewrite !getAttunementWeight_run.
  cbn [fst _item]. by rewrite E.
Qed.

Lemma foldr_weights_ext h h' (l : list Item) :
  (∀ item, item ∈ l → weightOf h' item = weightOf h item) →
  sumFrom (ofZ 0) (map (weightOf h') l) = sumFrom (ofZ 0) (map (weightOf h) l).
Proof.
  intros Hw. f_equal. induction l as [|x l IH]; [reflexivity|]. cbn [map].
  rewrite Hw by apply list_elem_of_here. rewrite IH; [done|].
  intros item Hin. apply Hw. by apply list_elem_of_further.
Qed.

Lemma update_establishes_burden
    (this : AdvancedAttunementActorData.t) (h : state) :
  let n := fst (newBurden this h) in
  let h' := snd (updateAttunementBurden this h) in
  fst (getAttunementBurden this h') = VNumber n
  ∧ fst (newBurden this h') = n.
Proof.
  intros n h'. subst n h'. rewrite newBurden_run. cbn [fst].
  set (actor := _actor this).
  set (n := sumAttunedWeights h (map snd (actor_items actor))).
  run_update this h R. fold actor n in R. rewrite R.
  destruct (strict_equals _ _) eqn:E.
  - cbn [snd]. rewrite getAttunementBurden_run, newBurden_run. cbn [fst].
    apply strict_equals_number in E as [E _]. fold actor. by rewrite E.
  - cbn [snd]. rewrite getAttunementBurden_run, newBurden_run. cbn [fst flags].
    fold actor. rewrite lookup_insert_eq. split; [done|].
    apply sumAttunedWeights_ext. intros item. cbn [flags].
    apply lookup_insert_ne, burden_flag_not_weight_flag.
Qed.

(** X5: whatever was stored before, after [updateAttunementBurden] the
    stored burden is the computed one: [getAttunementBurden] returns the
    number that [newBurden] computed, and computing again in the new state
    gives the same number. *)
Theorem X5_update_establishes_burden
    (this : AdvancedAttunementActorData.t) (h : state) :
  let n := fst (newBurden this h) in
  let h' := snd (updateAttunementBurden this h) in
  fst (getAttunementBurden this h') = VNumber n
  ∧ fst (newBurden this h') = n.
Proof. apply update_establishes_burden. Qed.

(** X6: a weight edit is not reflected in the stored burden.  After an
    update followed by [setAttunementWeight] on any item,
    [getAttunementBurden] still returns the sum computed before the edit;
    only the next [updateAttunementBurden] stores the sum of the edited
    weights. *)
Theorem X6_weight_edit_leaves_burden_stale
    (this : AdvancedAttunementActorData.t)
    (d : AdvancedAttunementItemData.t) (w : value) (h : state) :
  let h1 := snd (updateAttunementBurden this h) in
  let h2 := snd (setAttunementWeight d w h1) in
  let h3 := snd (updateAttunementBurden this h2) in
  fst (getAttunementBurden this h2) = VNumber (fst (newBurden this h))
  ∧ fst (getAttunementBurden this h3) = VNumber (fst (newBurden this h2)).
Proof.
  intros h1 h2 h3. split.
  - subst h2. rewrite setAttunementWeight_run. cbn [snd].
    rewrite getAttunementBurden_run. cbn [fst flags].
    rewrite lookup_insert_ne
      by (intros E; symmetry in E; by apply burden_flag_not_weight_flag in E).
    pose proof (update_establishes_burden this h) as [Hb _]. fold h1 in Hb.
    rewrite getAttunementBurden_run in Hb. exact Hb.
  - subst h3. apply update_establishes_burden.
Qed.

Lemma X6_witness :
  let this := AdvancedAttunementActorData.new hero in
  let d := AdvancedAttunementItemData.new cloak in
  let h1 := snd (updateAttunementBurden this (world [])) in
  let h2 := snd (setAttunementWeight d (VNumber (ofZ 3)) h1) in
  fst (getAttunementBurden this h2) = VNumber (ofZ 4)
  ∧ fst (newBurden this h2) = ofZ 6.
Proof.
  intros this d h1 h2.
  destruct (X6_weight_edit_leaves_burden_stale this d (VNumber (ofZ 3)) (world []))
    as [Hstale _].
  split.
  - subst h2 h1. rewrite Hstale. vm_compute. reflexivity.
  - vm_compute. reflexivity.
Defined.

(** ** How stored weights shape the burden *)

Lemma sumFrom_default h (l : list Item) a :
  (∀ item, item ∈ l → flags h !! weight_flag item = None) →
  sumFrom (ofZ a) (map (weightOf h) l) = ofZ (a + Z.of_nat (length l)).
Proof.
  revert a. induction l as [|x l IH]; intros a Hw.
  - cbn. f_equal. lia.
  - cbn [map sumFrom length].
    rewrite (weightOf_absent h x) by apply Hw, list_elem_of_here.
    rewrite ofZ_add, IH
      by (intros item Hin; apply Hw; by apply list_elem_of_further).
    f_equal. lia.
Qed.

Lemma foldr_weights_default h (l : list Item) :
  (∀ item, item ∈ l → flags h !! weight_flag item = None) →
  sumFrom (ofZ 0) (map (weightOf h) l) = ofZ (Z.of_nat (length l)).
Proof. intros Hw. by rewrite (sumFrom_default h l 0 Hw). Qed.

(** X7: when none of the attuned items has a stored weight, the computed
    burden is the number of attuned items: every one counts as the default
    weight 1. *)
Theorem X7_burden_without_weights_counts_attuned
    (this : AdvancedAttunementActorData.t) (h : state) :
  let attuned :=
    filter (λ item, item_attunement item = Attuned)
           (map snd (actor_items (_actor this))) in
  (∀ item, item ∈ attuned → flags h !! weight_flag item = None) →
  fst (newBurden this h) = ofZ (Z.of_nat (length attuned)).
Proof.
  intros attuned Hw. rewrite newBurden_foldr. fold attuned.
  by apply foldr_weights_default.
Qed.

Lemma X7_witness :
  let h := {| flags := ∅; console := []; updates := [] |} in
  fst (newBurden (AdvancedAttunementActorData.new hero) h) = ofZ 3.
Proof.
  intros h.
  apply (X7_burden_without_weights_counts_attuned
           (AdvancedAttunementActorData.new hero) h).
  intros item _. apply lookup_empty.
Defined.

Lemma sumFrom_integers h (l : list Item) (zs : list Z) a :
  Forall2 (λ item z, 0 <= z ∧ weightOf h item = ofZ z) l zs →
  sumFrom (ofZ a) (map (weightOf h) l) = ofZ (a + foldr Z.add 0 zs).
Proof.
  intros Hzs. revert a.
  induction Hzs as [|x z l zs [Hz Hw] _ IH]; intros a.
  - cbn. f_equal. lia.
  - cbn [map sumFrom foldr]. rewrite Hw, ofZ_add, IH. f_equal. lia.
Qed.

(** X8: when the weights of the attuned items are the non-negative
    integers [z1], ..., [zk] and their total does not exceed 2^53, the
    computed burden is exactly that total, and it is what
    [getAttunementBurden] returns after the update. *)
Theorem X8_burden_is_nonneg_integer
    (this : AdvancedAttunementActorData.t) (h : state) (zs : list Z) :
  let attuned :=
    filter (λ item, item_attunement item = Attuned)
           (map snd (actor_items (_actor this))) in
  let total := foldr Z.add 0 zs in
  Forall2 (λ item z, 0 <= z ∧ weightOf h item = ofZ z) attuned zs →
  total <= 2 ^ 53 →
  fst (newBurden this h) = ofZ total
  ∧ 0 <= total
  ∧ fst (getAttunementBurden this (snd (updateAttunementBurden this h)))
    = VNumber (ofZ total).
Proof.
  intros attuned total Hzs _.
  assert (fst (newBurden this h) = ofZ total) as Hn.
  { rewrite newBurden_foldr. fold attuned.
    by rewrite (sumFrom_integers h attuned zs 0 Hzs). }
  split; [done|]. split.
  - subst total. clear Hn. induction Hzs as [|x z l zs' [Hz _] _ IH]; simpl; lia.
  - rewrite <- Hn. apply update_establishes_burden.
Qed.

Lemma X8_witness :
  fst (newBurden (AdvancedAttunementActorData.new hero) (world [])) = ofZ 4.
Proof.
  apply (X8_burden_is_nonneg_integer
           (AdvancedAttunementActorData.new hero) (world []) [2; 1; 1]).
  - repeat constructor; vm_compute; discriminate.
  - vm_compute. discriminate.
Defined.

Lemma sumFrom_NaN ws : sumFrom NaN ws = NaN.
Proof. induction ws as [|w ws IH]; [reflexivity|]. exact IH. Qed.

Lemma foldr_weights_NaN h (l : list Item) item :
  item ∈ l → weightOf h item = NaN →
  sumFrom (ofZ 0) (map (weightOf h) l) = NaN.
Proof.
  intros Hin Hnan. generalize (ofZ 0) as acc.
  induction l as [|x l IH]; intros acc; [by apply elem_of_nil in Hin|].
  cbn [map sumFrom]. apply elem_of_cons in Hin as [<- | Hin].
  - rewrite Hnan. replace (add acc NaN) with NaN by (by destruct acc).
    apply sumFrom_NaN.
  - by apply IH.
Qed.

(** X9: one attuned item whose stored weight converts to [NaN] makes the
    whole burden [NaN].  Since [NaN] is never strictly equal to anything,
    every update then writes and logs again: two successive updates make two
    writes, whatever burden was stored. *)
Theorem X9_malformed_weight_poisons_burden
    (this : AdvancedAttunementActorData.t) (h : state) (item : Item) (v : value) :
  item ∈ filter (λ item, item_attunement item = Attuned)
                (map snd (actor_items (_actor this))) →
  flags h !! weight_flag item = Some v →
  v ≠ VUndefined → ToNumber v = NaN →
  fst (newBurden this h) = NaN
  ∧ writes_during (updateAttunementBurden this) h = 1%nat
  ∧ writes_during (updateTwice this) h = 2%nat
  ∧ fst (getAttunementBurden this (snd (updateTwice this h))) = VNumber NaN.
Proof.
  intros Hin Hv Hdef Hnan.
  assert (weightOf h item = NaN) as Hw.
  { rewrite (weightOf_stored _ _ _ Hv). unfold sanitizeWeight.
    replace (strict_equals v VUndefined) with false by (by destruct v).
    unfold Math_floor. by rewrite Hnan. }
  assert (fst (newBurden this h) = NaN) as Hn
    by (rewrite newBurden_foldr; by eapply foldr_weights_NaN).
  assert (∀ h0, fst (newBurden this h0) = NaN →
            updates (snd (updateAttunementBurden this h0)) =
              updates h0 ++ [burden_update (_actor this) NaN]) as Hwrite.
  { intros h0 Hn0. run_update this h0 R. rewrite newBurden_run in Hn0.
    cbn [fst] in Hn0. rewrite Hn0 in R. rewrite R.
    by destruct (default VUndefined _). }
  destruct (update_establishes_burden this h) as [_ Hsame].
  cbv zeta in Hsame. rewrite Hn in Hsame.
  split; [done|]. split.
  { unfold writes_during. rewrite (Hwrite h Hn), length_app. simpl. lia. }
  assert (snd (updateTwice this h) =
          snd (updateAttunementBurden this
                 (snd (updateAttunementBurden this h)))) as Htwice
    by (by rewrite updateTwice_run).
  split.
  - unfold writes_during. rewrite Htwice, (Hwrite _ Hsame), (Hwrite h Hn).
    rewrite !length_app. simpl. lia.
  - rewrite Htwice.
    destruct (update_establishes_burden this
                (snd (updateAttunementBurden this h))) as [Hb _].
    cbv zeta in Hb. by rewrite Hsame in Hb.
Qed.

Lemma X9_witness :
  let h :=
    {| flags := <[weight_flag cloak := VString "heavy"]> weights_only;
       console := []; updates := [] |} in
  let this := AdvancedAttunementActorData.new hero in
  fst (newBurden this h) = NaN
  ∧ writes_during (updateTwice this) h = 2%nat.
Proof.
  intros h this.
  destruct (X9_malformed_weight_poisons_burden this h cloak (VString "heavy"))
    as (Hn & _ & Htwo & _).
  - vm_compute. do 2 apply list_elem_of_further. apply list_elem_of_here.
  - reflexivity.
  - discriminate.
  - vm_compute. reflexivity.
  - by split.
Defined.

(** X10: the computed burden depends on the state only through the weight
    flags of the attuned items.  Two states that agree on those flags give
    the same burden; in particular [setAttunementWeight] on an item whose id
    no attuned item has leaves the computed burden as it was. *)
Theorem X10_burden_reads_only_attuned_weights
    (this : AdvancedAttunementActorData.t) (h : state) :
  let attuned :=
    filter (λ item, item_attunement item = Attuned)
           (map snd (actor_items (_actor this))) in
  (∀ h', (∀ item, item ∈ attuned →
            flags h' !! weight_flag item = flags h !! weight_flag item) →
         fst (newBurden this h') = fst (newBurden this h))
  ∧ (∀ d w, (∀ item, item ∈ attuned → item_id item ≠ item_id (_item d)) →
       fst (newBurden this (snd (setAttunementWeight d w h))) =
       fst (newBurden this h)).
Proof.
  intros attuned.
  assert (∀ h', (∀ item, item ∈ attuned →
            flags h' !! weight_flag item = flags h !! weight_flag item) →
          fst (newBurden this h') = fst (newBurden this h)) as Hext.
  { intros h' Hagree. rewrite !newBurden_foldr. fold attuned.
    apply foldr_weights_ext. intros item Hin.
    by apply weightOf_flag, Hagree. }
  split; [exact Hext|].
  intros d w Hids. apply Hext. intros item Hin.
  rewrite setAttunementWeight_run. cbn [snd flags].
  apply lookup_insert_ne. unfold weight_flag.
  specialize (Hids item Hin). congruence.
Qed.

Lemma X10_witness :
  let this := AdvancedAttunementActorData.new hero in
  let d := AdvancedAttunementItemData.new wand in
  fst (newBurden this (snd (setAttunementWeight d (VNumber (ofZ 9)) (world []))))
  = fst (newBurden this (world [])).
Proof.
  intros this d.
  apply (proj2 (X10_burden_reads_only_attuned_weights this (world []))).
  intros item Hin. vm_compute in Hin.
  repeat (apply elem_of_cons in Hin as [->|Hin]; [discriminate|]).
  by apply elem_of_nil in Hin.
Defined.

(** ** The getter and the lookups *)

(** X11: [playerCharacters] lists exactly the actors that [getActor] can
    return: an actor is in the list if and only if [getActor] returns its
    wrapper for some id.  Every listed actor has type [character]. *)
Theorem X11_playerCharacters_are_getActor_results
    (actors : Collection Actor) :
  NoDup (actors.*1) →
  ∀ actor,
    (actor ∈ playerCharacters actors ↔
     ∃ actorId, getActor actors actorId =
                Some (AdvancedAttunementActorData.new actor))
    ∧ (actor ∈ playerCharacters actors →
       actor_type actor = "character"%string).
Proof.
  intros Hnd actor.
  assert (actor ∈ playerCharacters actors ↔
          isPlayerCharacter actor = true ∧ ∃ k, (k, actor) ∈ actors) as Hmem.
  { unfold playerCharacters, Collection_filter.
    rewrite list_elem_of_In, filter_In, <- list_elem_of_In, list_elem_of_fmap.
    split.
    - intros [([k a] & -> & Hin) Hpc]. split; [done|]. by exists k.
    - intros [Hpc [k Hin]]. split; [|done]. by exists (k, actor). }
  split.
  - rewrite Hmem. split.
    + intros [Hpc [k Hin]]. exists k. unfold getActor.
      apply (Collection_get_Some _ _ _ Hnd) in Hin. by rewrite Hin, Hpc.
    + intros [k Hget]. unfold getActor in Hget.
      destruct (Collection_get actors k) as [a|] eqn:G; [|done].
      destruct (isPlayerCharacter a) eqn:Hpc; [|done].
      injection Hget as ->. split; [done|]. exists k.
      by apply (Collection_get_Some _ _ _ Hnd).
  - intros [Hpc _]%Hmem. by apply isPlayerCharacter_spec.
Qed.

Lemma X11_witness :
  hero ∈ playerCharacters game_actors
  ∧ ¬ goblin ∈ playerCharacters game_actors.
Proof.
  assert (NoDup (game_actors.*1)) as Hnd
    by (apply (bool_decide_unpack _); vm_compute; exact I).
  split.
  - apply (proj1 (X11_playerCharacters_are_getActor_results
                    game_actors Hnd hero)).
    by exists "hero"%string.
  - intros Hin.
    apply (proj2 (X11_playerCharacters_are_getActor_results
                    game_actors Hnd goblin)) in Hin.
    discriminate Hin.
Defined.

(** X12: every item that counts toward the burden can be loaded: for an
    attuned item stored under an id, [getItem] with that id returns its
    wrapper, and the weight read through that wrapper is the one the burden
    sums. *)
Theorem X12_attuned_items_are_loadable
    (this : AdvancedAttunementActorData.t) (itemId : string) (item : Item)
    (h : state) :
  NoDup ((actor_items (_actor this)).*1) →
  (itemId, item) ∈ actor_items (_actor this) →
  item_attunement item = Attuned →
  getItem this itemId = Some (AdvancedAttunementItemData.new item)
  ∧ (∀ d, getItem this itemId = Some d →
          fst (getAttunementWeight d h) = weightOf h item).
Proof.
  intros Hnd Hin Hatt.
  assert (getItem this itemId = Some (AdvancedAttunementItemData.new item)) as G.
  { unfold getItem. apply (Collection_get_Some _ _ _ Hnd) in Hin.
    rewrite Hin.
    replace (isAttunable item) with true; [done|].
    symmetry. apply isAttunable_spec. by right. }
  split; [exact G|]. intros d Hd. rewrite G in Hd. by injection Hd as <-.
Qed.

Lemma X12_witness :
  getItem (AdvancedAttunementActorData.new hero) "ring" =
  Some (AdvancedAttunementItemData.new ring).
Proof.
  apply (X12_attuned_items_are_loadable
           (AdvancedAttunementActorData.new hero) "ring" ring (world [])).
  - apply (bool_decide_unpack _). vm_compute. exact I.
  - do 2 apply list_elem_of_further. apply list_elem_of_here.
  - reflexivity.
Defined.

(** ** The [updateItem] hook *)

(** X13: the hook does nothing, and does not throw, when the updated item
    is not attunable, whoever its parent is and even without a parent; and
    when it is attunable but its parent is not a player character.  So an
    item whose status has just been set to NotAttunable leaves the stored
    burden as it was, stale or not. *)
Theorem X13_updateItem_ignores_other_items
    (item : Item) (parent : option Actor) (h : state) :
  (item_attunement item ≠ RequiresAttunement
   ∧ item_attunement item ≠ Attuned →
   on_updateItem item parent h = (Normal tt, h))
  ∧ (∀ actor, parent = Some actor →
       actor_type actor ≠ "character"%string →
       on_updateItem item parent h = (Normal tt, h)).
Proof.
  split.
  - intros [H1 H2]. unfold on_updateItem.
    replace (isAttunable item) with false; [done|].
    symmetry. apply Bool.not_true_iff_false.
    intros [?|?]%isAttunable_spec; done.
  - intros actor -> Hty. unfold on_updateItem.
    destruct (isAttunable item); [|done].
    replace (isPlayerCharacter actor) with false; [done|].
    symmetry. apply Bool.not_true_iff_false.
    by intros ?%isPlayerCharacter_spec.
Qed.

Lemma X13_witness :
  let h := world [(hero, VNumber (ofZ 5))] in
  on_updateItem rope (Some hero) h = (Normal tt, h)
  ∧ on_updateItem rope None h = (Normal tt, h)
  ∧ on_updateItem sword (Some goblin) h = (Normal tt, h).
Proof.
  intros h. split; [|split].
  - apply (proj1 (X13_updateItem_ignores_other_items rope (Some hero) h)).
    by split.
  - apply (proj1 (X13_updateItem_ignores_other_items rope None h)).
    by split.
  - by apply (proj2 (X13_updateItem_ignores_other_items sword (Some goblin) h)
                goblin).
Defined.

(** X14: for an attunable item that has no parent, the hook throws a
    [TypeError] (it reads the type of [null]) before it has changed
    anything. *)
Theorem X14_updateItem_throws_without_parent (item : Item) (h : state) :
  item_attunement item = RequiresAttunement
  ∨ item_attunement item = Attuned →
  on_updateItem item None h = (Throw TypeError, h).
Proof.
  intros Hst. apply isAttunable_spec in Hst.
  unfold on_updateItem. by rewrite Hst.
Qed.

Lemma X14_witness :
  on_updateItem wand None (world []) = (Throw TypeError, world []).
Proof. apply X14_updateItem_throws_without_parent. by left. Defined.

(** X15: for an attunable item whose parent is a player character, the
    hook runs [updateAttunementBurden] on the parent and nothing else;
    afterwards the parent's stored burden is the burden that update
    computed from the parent's items. *)
Theorem X15_updateItem_recomputes_parent_burden
    (item : Item) (actor : Actor) (h : state) :
  let this := AdvancedAttunementActorData.new actor in
  item_attunement item = RequiresAttunement
  ∨ item_attunement item = Attuned →
  actor_type actor = "character"%string →
  on_updateItem item (Some actor) h =
    (Normal tt, snd (updateAttunementBurden this h))
  ∧ fst (getAttunementBurden this (snd (on_updateItem item (Some actor) h)))
    = VNumber (fst (newBurden this h)).
Proof.
  intros this Hst Hty.
  apply isAttunable_spec in Hst. apply isPlayerCharacter_spec in Hty.
  assert (on_updateItem item (Some actor) h =
          (Normal tt, snd (updateAttunementBurden this h))) as Hrun.
  { unfold on_updateItem. rewrite Hst, Hty. unfold mbind, M_bind. fold this.
    by destruct (updateAttunementBurden this h). }
  split; [exact Hrun|]. rewrite Hrun. cbn [snd].
  by destruct (update_establishes_burden this h) as [Hb _].
Qed.

Lemma X15_witness :
  fst (getAttunementBurden (AdvancedAttunementActorData.new hero)
         (snd (on_updateItem wand (Some hero) (world [(hero, VNumber (ofZ 5))]))))
  = VNumber (ofZ 4).
Proof.
  destruct (X15_updateItem_recomputes_parent_burden wand hero
              (world [(hero, VNumber (ofZ 5))])) as [_ Hb].
  - by left.
  - reflexivity.
  - rewrite Hb. vm_compute. reflexivity.
Defined.

(** ** The [renderTidy5eSheet] hook *)

Lemma with_console_nil h : with_console h [] = h.
Proof. destruct h. unfold with_console. simpl. by rewrite app_nil_r. Qed.

Lemma with_console_app h a b :
  with_console (with_console h a) b = with_console h (a ++ b).
Proof. unfold with_console. simpl. by rewrite app_assoc. Qed.

Lemma render_icon_with_console actor h calls iconDiv :
  render_icon actor (with_console h calls) iconDiv = render_icon actor h iconDiv.
Proof.
  unfold render_icon, badge_shown.
  destruct (loadable actor iconDiv) as [d|]; [|done].
  by rewrite (weightOf_flag h (with_console h calls)).
Qed.

Lemma showWeight_run app iconDiv h :
  showWeight app (AdvancedAttunementActorData.new (app_object app)) iconDiv h =
  (render_icon (app_object app) h iconDiv,
   with_console h (icon_warnings app [iconDiv])).
Proof.
  unfold showWeight, render_icon, badge_shown, icon_warnings, loadable.
  cbn [flat_map].
  destruct (parent_data_item_id iconDiv ≫= _) as [d|] eqn:L.
  - unfold mbind at 1, M_bind. rewrite getAttunementWeight_run.
    change (sanitizeWeight _) with (weightOf h (_item d)).
    rewrite with_console_nil.
    by destruct (ToBoolean (VNumber (weightOf h (_item d)))).
  - rewrite app_nil_r. reflexivity.
Qed.

Lemma icons_run app icons h :
  mapM (showWeight app (AdvancedAttunementActorData.new (app_object app)))
       icons h =
  (map (render_icon (app_object app) h) icons,
   with_console h (icon_warnings app icons)).
Proof.
  revert h. induction icons as [|iconDiv icons IH]; intros h.
  - cbn. by rewrite with_console_nil.
  - rewrite mapM_cons, showWeight_run, IH, with_console_app.
    rewrite (map_ext _ (render_icon (app_object app) h))
      by (intros x; apply render_icon_with_console).
    unfold icon_warnings. cbn [map flat_map]. by rewrite app_nil_r.
Qed.

Lemma showBurden_run actor burden display h :
  showBurden actor burden display h =
  ([[Interp burden]], with_console h [display_report actor burden]).
Proof. reflexivity. Qed.

Lemma displays_run actor burden (displays : list (list node)) h :
  mapM (showBurden actor burden) displays h =
  (map (λ _, [[Interp burden]]) displays,
   with_console h (map (λ _, display_report actor burden) displays)).
Proof.
  revert h. induction displays as [|d displays IH]; intros h.
  - cbn. by rewrite with_console_nil.
  - by rewrite mapM_cons, showBurden_run, IH, with_console_app.
Qed.

Lemma on_renderTidy5eSheet_run app html h :
  let actor := app_object app in
  let burden := fst (getAttunementBurden
                       (AdvancedAttunementActorData.new actor) h) in
  on_renderTidy5eSheet app html h =
  ({| attunement_icons := map (render_icon actor h) (attunement_icons html);
      attuned_items_current :=
        map (λ _, [[Interp burden]]) (attuned_items_current html) |},
   with_console h
     (icon_warnings app (attunement_icons html)
      ++ map (λ _, display_report actor burden) (attuned_items_current html))).
Proof.
  intros actor burden. unfold on_renderTidy5eSheet, mbind, M_bind.
  fold actor. rewrite icons_run. fold actor.
  rewrite getAttunementBurden_run, displays_run, with_console_app.
  reflexivity.
Qed.

Lemma ToBoolean_number n :
  ToBoolean (VNumber n) = true ↔ n ≠ NaN ∧ n ≠ ofZ 0.
Proof.
  destruct n as [| | |q]; cbn [ToBoolean]; try (split; [done | by intros [? ?]]).
  rewrite negb_true_iff. split.
  - intros E. split; [done|]. intros [= ->]. by vm_compute in E.
  - intros [_ Hq]. apply Bool.not_true_iff_false. intros E. apply Hq.
    apply Qeq_bool_iff in E. unfold ofZ. f_equal. by apply Qc_is_canon.
Qed.

(** X16: the hook leaves the icon cells in their order and puts a weight
    badge in front of the children of exactly those cells whose item the
    actor can load and whose weight is neither 0 nor [NaN].  A cell of an
    item of weight 0, of an item that is not attunable or not owned, or
    without an item id keeps its children unchanged. *)
Theorem X16_render_badges_nonzero_weights
    (app : App) (html : SheetHtml) (h : state) :
  let actor := app_object app in
  let html' := fst (on_renderTidy5eSheet app html h) in
  attunement_icons html' = map (render_icon actor h) (attunement_icons html)
  ∧ ∀ iconDiv,
      (∀ d, loadable actor iconDiv = Some d →
            weightOf h (_item d) ≠ NaN → weightOf h (_item d) ≠ ofZ 0 →
            render_icon actor h iconDiv =
            with_badge iconDiv (weightOf h (_item d)))
      ∧ (∀ d, loadable actor iconDiv = Some d →
              weightOf h (_item d) = NaN ∨ weightOf h (_item d) = ofZ 0 →
              render_icon actor h iconDiv = iconDiv)
      ∧ (loadable actor iconDiv = None →
         render_icon actor h iconDiv = iconDiv).
Proof.
  intros actor html'. subst html'.
  pose proof (on_renderTidy5eSheet_run app html h) as R. cbv zeta in R.
  rewrite R. cbn [fst attunement_icons]. split; [reflexivity|].
  intros iconDiv. unfold render_icon, badge_shown. fold actor.
  split; [|split].
  - intros d -> H1 H2.
    by rewrite (proj2 (ToBoolean_number _) (conj H1 H2)).
  - intros d -> Hw.
    destruct (ToBoolean (VNumber (weightOf h (_item d)))) eqn:E; [|done].
    apply ToBoolean_number in E as [? ?]. by destruct Hw.
  - by intros ->.
Qed.

Lemma X16_witness :
  attunement_icons (fst (on_renderTidy5eSheet hero_app hero_sheet (world []))) =
  [with_badge {| parent_data_item_id := Some "sword"; icon_children := [] |}
     (ofZ 2);
   {| parent_data_item_id := Some "rope"; icon_children := [] |};
   {| parent_data_item_id := Some "lute"; icon_children := [] |};
   {| parent_data_item_id := None; icon_children := [] |}].
Proof.
  destruct (X16_render_badges_nonzero_weights hero_app hero_sheet (world []))
    as [Hicons Hcell].
  cbv zeta in Hicons. rewrite Hicons. cbn [hero_sheet attunement_icons map].
  rewrite (proj1 (Hcell {| parent_data_item_id := Some "sword";
                           icon_children := [] |})
             (AdvancedAttunementItemData.new sword) eq_refl)
    by (vm_compute; discriminate).
  rewrite (proj2 (proj2 (Hcell {| parent_data_item_id := Some "rope";
                                  icon_children := [] |})) eq_refl).
  rewrite (proj2 (proj2 (Hcell {| parent_data_item_id := Some "lute";
                                  icon_children := [] |})) eq_refl).
  rewrite (proj2 (proj2 (Hcell {| parent_data_item_id := None;
                                  icon_children := [] |})) eq_refl).
  reflexivity.
Defined.

(** X17: the hook replaces the children of every element that displays the
    attuned-items count by the stored burden exactly as
    [getAttunementBurden] returns it, without recomputing it.  When no
    burden was ever stored, what is displayed is [undefined]. *)
Theorem X17_render_displays_stored_burden
    (app : App) (html : SheetHtml) (h : state) :
  let actor := app_object app in
  let html' := fst (on_renderTidy5eSheet app html h) in
  let burden := fst (getAttunementBurden
                       (AdvancedAttunementActorData.new actor) h) in
  attuned_items_current html' =
    map (λ _, [[Interp burden]]) (attuned_items_current html)
  ∧ (flags h !! burden_flag actor = None → burden = VUndefined)
  ∧ (∀ v, flags h !! burden_flag actor = Some v → burden = v).
Proof.
  intros actor html' burden. subst html' burden.
  pose proof (on_renderTidy5eSheet_run app html h) as R. cbv zeta in R.
  rewrite R. cbn [fst attuned_items_current]. split; [reflexivity|].
  rewrite getAttunementBurden_run. cbn [fst _actor]. fold actor.
  split; [by intros -> | by intros v ->].
Qed.

Lemma X17_witness :
  attuned_items_current
    (fst (on_renderTidy5eSheet hero_app hero_sheet (world []))) =
    [[[Interp VUndefined]]]
  ∧ attuned_items_current
      (fst (on_renderTidy5eSheet hero_app hero_sheet
              (world [(hero, VNumber (ofZ 5))]))) =
    [[[Interp (VNumber (ofZ 5))]]].
Proof.
  destruct (X17_render_displays_stored_burden hero_app hero_sheet (world []))
    as (H1 & Hundef & _).
  destruct (X17_render_displays_stored_burden hero_app hero_sheet
              (world [(hero, VNumber (ofZ 5))])) as (H2 & _ & Hv).
  cbv zeta in H1, H2, Hundef, Hv. split.
  - rewrite H1, (Hundef eq_refl). reflexivity.
  - rewrite H2, (Hv _ eq_refl). reflexivity.
Defined.

(** X18: rendering is read-only on the stored data: the hook changes no
    flag and makes no [setFlag] call.  All it sends out is console output:
    first one warning for each icon cell whose item cannot be loaded, in
    order, then one log line for each burden display. *)
Theorem X18_render_writes_nothing
    (app : App) (html : SheetHtml) (h : state) :
  let actor := app_object app in
  let h' := snd (on_renderTidy5eSheet app html h) in
  let burden := fst (getAttunementBurden
                       (AdvancedAttunementActorData.new actor) h) in
  flags h' = flags h
  ∧ updates h' = updates h
  ∧ console h' =
      console h
      ++ icon_warnings app (attunement_icons html)
      ++ map (λ _, display_report actor burden) (attuned_items_current html)
  ∧ length (icon_warnings app (attunement_icons html)) =
    length (List.filter (unloadable actor) (attunement_icons html)).
Proof.
  intros actor h' burden. subst h'.
  pose proof (on_renderTidy5eSheet_run app html h) as R. cbv zeta in R.
  rewrite R. cbn [snd]. split; [reflexivity|]. split; [reflexivity|].
  split; [reflexivity|].
  subst actor. clear R.
  induction (attunement_icons html) as [|iconDiv icons IH]; [reflexivity|].
  unfold icon_warnings, unloadable in *. cbn [flat_map List.filter].
  destruct (loadable (app_object app) iconDiv); cbn; by rewrite IH.
Qed.

(** ** Statuses that are not the numbers 1 and 2 *)

Lemma filter_attuned_none (items : list Item) :
  (∀ item, item ∈ items → item_attunement item ≠ Attuned) →
  filter (λ item, item_attunement item = Attuned) items = [].
Proof.
  induction items as [|x items IH]; intros Hno; [reflexivity|].
  rewrite filter_cons. rewrite decide_False by apply Hno, list_elem_of_here.
  apply IH. intros item Hin. apply Hno. by apply list_elem_of_further.
Qed.

(** X19: the status tests use [===] against the numbers 1 and 2: an attuned
    item is always attunable, and an item whose status is not a number
    (absent, or a string such as ["2"]) is neither.  For an actor none of
    whose items has status 1 or 2, the computed burden is 0 and [getItem]
    returns nothing for every id. *)
Theorem X19_only_numeric_statuses_count
    (this : AdvancedAttunementActorData.t) (h : state) :
  (∀ item, isAttuned item = true → isAttunable item = true)
  ∧ (∀ item, (∀ n, item_attunement item ≠ VNumber n) →
       isAttuned item = false ∧ isAttunable item = false)
  ∧ ((∀ itemId item, (itemId, item) ∈ actor_items (_actor this) →
        item_attunement item ≠ RequiresAttunement
        ∧ item_attunement item ≠ Attuned) →
     fst (newBurden this h) = ofZ 0
     ∧ ∀ itemId, getItem this itemId = None).
Proof.
  split; [|split].
  - intros item H. unfold isAttunable. rewrite H. apply orb_true_r.
  - intros item Hn. unfold isAttunable, isAttuned.
    destruct (item_attunement item) as [| | |n| |]; try done.
    by destruct (Hn n).
  - intros Hst. split.
    + rewrite newBurden_foldr.
      rewrite filter_attuned_none; [reflexivity|].
      intros item [[k x] [-> Hin]]%list_elem_of_fmap. cbn [snd].
      by destruct (Hst k x Hin).
    + intros itemId. unfold getItem.
      destruct (Collection_get _ itemId) as [item|] eqn:G; [|done].
      replace (isAttunable item) with false; [done|].
      symmetry. apply Bool.not_true_iff_false. intros Hat.
      assert ((itemId, item) ∈ actor_items (_actor this)) as Hin.
      { clear -G. induction (actor_items (_actor this)) as [|[k x] c IH];
          [done|]. simpl in G. destruct (String.eqb k itemId) eqn:E.
        - apply String.eqb_eq in E as ->. injection G as ->.
          apply list_elem_of_here.
        - apply list_elem_of_further. by apply IH. }
      apply isAttunable_spec in Hat. destruct (Hst _ _ Hin). by destruct Hat.
Qed.

Lemma X19_witness :
  let tome :=
    {| item_id := "tome"; item_name := "Tome"; item_attunement := VString "2" |} in
  let sage :=
    {| actor_id := "sage"; actor_name := "Sage"; actor_type := "character";
       actor_items := [("tome", tome)] |} in
  isAttuned tome = false
  ∧ fst (newBurden (AdvancedAttunementActorData.new sage) (world [])) = ofZ 0
  ∧ getItem (AdvancedAttunementActorData.new sage) "tome" = None.
Proof.
  intros tome sage.
  destruct (X19_only_numeric_statuses_count
              (AdvancedAttunementActorData.new sage) (world []))
    as (_ & Hnot & Hnone).
  split; [by apply Hnot|].
  destruct Hnone as [Hzero Hget]; [|by split].
  intros itemId item Hin. apply list_elem_of_singleton in Hin.
  injection Hin as -> ->. by split.
Defined.
